(** * A chat front-end, its /api/chat route and its persistence helpers

    Shallow embedding of
    - [src/components/ChatInterface.js]  (the React component, [sendMessage]),
    - the [/api/chat] route              ([handler]),
    - [src/lib/database.js]              (the Supabase wrappers),
    followed by the properties the specification states about them. *)

From Stdlib Require Import String Ascii List Bool ZArith NArith Lia.
Import ListNotations.
Open Scope string_scope.
Set Warnings "-register-all".

(* ===================================================================== *)
(** * JavaScript values, as far as the three files look at them *)
(* ===================================================================== *)

Module JS.

(** A thrown [Error] object.  The program reads two of its properties:
    [error.message] (the component's [catch], the route's [details]) and
    [error.status] (the route's classification).  [status] is [None] for
    errors that carry no HTTP status ([TypeError], connection errors). *)
Record exn := mkExn { name : string; message : string; status : option Z }.

(** The outcome of evaluating an expression: a value, or a [throw]. *)
Inductive result (A : Type) : Type :=
| Ok (a : A)
| Throw (e : exn).
Arguments Ok {A} a.
Arguments Throw {A} e.

Definition bind {A B} (r : result A) (k : A -> result B) : result B :=
  match r with
  | Ok a => k a
  | Throw e => Throw e
  end.

Declare Scope js_scope.
Delimit Scope js_scope with js.
Notation "x <- r ;; k" := (bind r (fun x => k))
  (at level 61, r at next level, right associativity) : js_scope.

(** JSON-shaped values.  The program does no arithmetic: it only tests
    numbers for truthiness and prints them, so a number is carried as the
    text [ToString] gives it ("500", "0.7", "NaN").  A string is a sequence
    of code units below 256.  The field list of an object has distinct
    keys. *)
Inductive value : Type :=
| Undefined
| Null
| Bool (b : bool)
| Num (repr : string)
| Str (s : string)
| Arr (items : list value)
| Obj (fields : list (string * value)).

(** [!!v] *)
Definition truthy (v : value) : bool :=
  match v with
  | Undefined | Null => false
  | Bool b => b
  | Num r => negb ((r =? "0") || (r =? "NaN"))
  | Str s => negb (s =? "")
  | Arr _ | Obj _ => true
  end.

(** [a || b] *)
Definition or_else (a b : value) : value := if truthy a then a else b.

(** [Array.isArray(v)] *)
Definition isArray (v : value) : bool :=
  match v with Arr _ => true | _ => false end.

Fixpoint lookup (key : string) (fields : list (string * value)) : value :=
  match fields with
  | [] => Undefined
  | (k, v) :: rest => if k =? key then v else lookup key rest
  end.

(** The object has a property of its own under [key], whatever its value. *)
Definition has_own (key : string) (fields : list (string * value)) : bool :=
  existsb (fun kv => fst kv =? key) fields.

(** The messages are V8's.  Other engines word them differently; nothing
    below depends on the wording. *)
Definition TypeError (msg : string) : exn :=
  {| name := "TypeError"; message := msg; status := None |}.

(** [ToString], as a template literal applies it.  An array prints its
    elements separated by commas, [null] and [undefined] elements as the
    empty string.  An object prints as [[object Object]] through the
    inherited [toString]; a property [toString] of its own hides that
    method, and since no JSON value can be called ([valueOf] gives the
    object back) the conversion throws a [TypeError].  An array converts
    its elements from left to right and throws with the first that does. *)
Fixpoint to_string (v : value) : result string :=
  match v with
  | Undefined => Ok "undefined"
  | Null => Ok "null"
  | Bool true => Ok "true"
  | Bool false => Ok "false"
  | Num r => Ok r
  | Str s => Ok s
  | Arr items =>
      (fix joined (l : list value) : result string :=
         match l with
         | [] => Ok ""
         | x :: rest =>
             (first <- match x with
                       | Undefined | Null => Ok ""
                       | _ => to_string x
                       end ;;
              match rest with
              | [] => Ok first
              | _ :: _ => more <- joined rest ;; Ok (first ++ "," ++ more)
              end)%js
         end) items
  | Obj fields =>
      if has_own "toString" fields
      then Throw (TypeError "Cannot convert object to primitive value")
      else Ok "[object Object]"
  end.

(** How an error message names [null] and [undefined]. *)
Definition nullish (v : value) : string :=
  match v with Null => "null" | _ => "undefined" end.

(** What is thrown when a property of [null] or [undefined] is read. *)
Definition cannot_read (v : value) (key : string) : exn :=
  TypeError ("Cannot read properties of " ++ nullish v
             ++ " (reading '" ++ key ++ "')").

(** [v.key] for a key that no prototype defines (the program reads
    [messages], [choices], [message], [content], [error], [data]): the own
    property of an object, [undefined] on any other value, a [TypeError] on
    [null] and [undefined]. *)
Definition get (v : value) (key : string) : result value :=
  match v with
  | Undefined | Null => Throw (cannot_read v key)
  | Obj fields => Ok (lookup key fields)
  | _ => Ok Undefined
  end.

(** [v?.key] *)
Definition get_opt (v : value) (key : string) : result value :=
  match v with
  | Undefined | Null => Ok Undefined
  | _ => get v key
  end.

(** [v[0]]: the first element of an array, the first character of a
    string, the property ["0"] of an object. *)
Definition get0 (v : value) : result value :=
  match v with
  | Undefined | Null => Throw (cannot_read v "0")
  | Arr items => Ok (hd Undefined items)
  | Str (String c _) => Ok (Str (String c ""))
  | Obj fields => Ok (lookup "0" fields)
  | _ => Ok Undefined
  end.

(** [const { key } = expr], where [expr] evaluates to [v] *)
Definition destructure (expr : string) (v : value) (key : string) : result value :=
  match v with
  | Undefined | Null =>
      Throw (TypeError ("Cannot destructure property '" ++ key ++ "' of '"
                        ++ expr ++ "' as it is " ++ nullish v ++ "."))
  | _ => get v key
  end.

(** [JSON.parse(JSON.stringify(v))]: what the peer sees of [v].  A property
    whose value is [undefined] is dropped, an [undefined] array element and
    a non-finite number become [null]. *)
Fixpoint over_the_wire (v : value) : value :=
  match v with
  | Undefined => Undefined
  | Num r =>
      if (r =? "NaN") || (r =? "Infinity") || (r =? "-Infinity")
      then Null else Num r
  | Arr items =>
      Arr (map (fun x => match x with
                         | Undefined => Null
                         | _ => over_the_wire x
                         end) items)
  | Obj fields =>
      Obj ((fix go (fs : list (string * value)) : list (string * value) :=
              match fs with
              | [] => []
              | (_, Undefined) :: rest => go rest
              | (k, x) :: rest => (k, over_the_wire x) :: go rest
              end) fields)
  | _ => v
  end.

(** ** Strings *)

(** The white space [String.prototype.trim] strips, among the code units
    below 256: TAB, LF, VT, FF, CR, SPACE and NO-BREAK SPACE. *)
Definition is_white_space (c : ascii) : bool :=
  let n := N_of_ascii c in
  ((9 <=? n) && (n <=? 13) || (n =? 32) || (n =? 160))%N.

Fixpoint trimStart (s : string) : string :=
  match s with
  | String c rest => if is_white_space c then trimStart rest else s
  | EmptyString => EmptyString
  end.

Fixpoint trimEnd (s : string) : string :=
  match s with
  | String c rest =>
      match trimEnd rest with
      | EmptyString => if is_white_space c then EmptyString else String c EmptyString
      | kept => String c kept
      end
  | EmptyString => EmptyString
  end.

(** [s.trim()] *)
Definition trim (s : string) : string := trimEnd (trimStart s).

(** [hay.includes(needle)] on strings *)
Fixpoint includes (hay needle : string) : bool :=
  String.prefix needle hay
  || match hay with
     | String _ rest => includes rest needle
     | EmptyString => false
     end.

End JS.

(* ===================================================================== *)
(** * src/components/ChatInterface.js *)
(* ===================================================================== *)

Module ChatInterface.
Import JS.

Inductive Role := user | assistant.

(** One entry of [messages]: [{ role, content }]. *)
Record Turn := mkTurn { role : Role; content : value }.

(** The [useState] cells of the component. *)
Record State := mkState {
  messages : list Turn;
  input : string;
  isLoading : bool;
  autoScroll : bool;
  darkMode : bool;
  showSettings : bool
}.

Definition greeting : Turn :=
  {| role := assistant;
     content := Str "Hello! I'm your chatbot assistant. How can I help you today?" |}.

Definition initial : State :=
  {| messages := [greeting]; input := ""; isLoading := false;
     autoScroll := true; darkMode := false; showSettings := false |}.

(** The argument of [fetch]; [body] is the value [JSON.stringify] is given. *)
Record Request := mkRequest {
  url : string;
  method : string;
  headers : list (string * string);
  body : value
}.

(** What [fetch] resolves with: the status line and the outcome of
    [response.json()], a [Throw] when the body is not JSON. *)
Record Response := mkResponse { status : Z; json : result value }.

(** [response.ok] *)
Definition ok (r : Response) : bool :=
  ((200 <=? status r) && (status r <=? 299))%Z.

(** What a handler does to the outside.  Every updater the component passes
    to [setMessages] has the shape [prev => [...prev, turn]]; the turn is
    built when React runs the updater, not when [setMessages] is called, so
    a [throw] while building it does not reach the caller of
    [setMessages]. *)
Inductive effect : Type :=
| PreventDefault
| SetMessages (appended : result Turn)
| SetInput (v : string)
| SetIsLoading (b : bool)
| Fetch (rq : Request).

(** An [async] function body: it returns, throws, performs an effect, or
    waits for [fetch] to settle. *)
Inductive task (A : Type) : Type :=
| Ret (a : A)
| Raise (e : exn)
| Do (ef : effect) (k : task A)
| Await (rq : Request) (k : result Response -> task A).
Arguments Ret {A} a.
Arguments Raise {A} e.
Arguments Do {A} ef k.
Arguments Await {A} rq k.

Fixpoint then_ {A B} (t : task A) (k : A -> task B) : task B :=
  match t with
  | Ret a => k a
  | Raise e => Raise e
  | Do ef t' => Do ef (then_ t' k)
  | Await rq t' => Await rq (fun r => then_ (t' r) k)
  end.

(** [try { t } catch (error) { h error }] *)
Fixpoint try_catch {A} (t : task A) (h : exn -> task A) : task A :=
  match t with
  | Ret a => Ret a
  | Raise e => h e
  | Do ef t' => Do ef (try_catch t' h)
  | Await rq t' => Await rq (fun r => try_catch (t' r) h)
  end.

(** [try { t } finally { f }] *)
Fixpoint finally {A} (t : task A) (f : task unit) : task A :=
  match t with
  | Ret a => then_ f (fun _ => Ret a)
  | Raise e => then_ f (fun _ => Raise e)
  | Do ef t' => Do ef (finally t' f)
  | Await rq t' => Await rq (fun r => finally (t' r) f)
  end.

Definition perform (ef : effect) : task unit := Do ef (Ret tt).

(** [await p] for a promise that has settled with [r] *)
Definition settled {A} (r : result A) : task A :=
  match r with
  | Ok a => Ret a
  | Throw e => Raise e
  end.

(** [await fetch(rq)] *)
Definition fetch (rq : Request) : task Response := Await rq settled.

Declare Scope task_scope.
Delimit Scope task_scope with task.
Notation "x <- t ;; k" := (then_ t (fun x => k))
  (at level 61, t at next level, right associativity) : task_scope.
Notation "t ;; k" := (then_ t (fun _ => k))
  (at level 61, right associativity) : task_scope.

Definition role_name (r : Role) : string :=
  match r with user => "user" | assistant => "assistant" end.

(** A turn as the object literal [{ role, content }]. *)
Definition turn_value (t : Turn) : value :=
  Obj [("role", Str (role_name (role t))); ("content", content t)].

(** [!input.trim() || isLoading] *)
Definition refused (c : State) : bool :=
  negb (truthy (Str (trim (input c)))) || isLoading c.

(** [sendMessage], as the render that saw the state [c] defines it: [input],
    [isLoading] and [messages] are the values of that render. *)
Definition sendMessage (c : State) : task unit :=
  (perform PreventDefault ;;
   if refused c then Ret tt else
   let userMessage := {| role := user; content := Str (input c) |} in
   perform (SetMessages (Ok userMessage)) ;;
   perform (SetInput "") ;;
   perform (SetIsLoading true) ;;
   finally
     (try_catch
        (response <- fetch {| url := "/api/chat";
                              method := "POST";
                              headers := [("Content-Type", "application/json")];
                              body := Obj [("messages",
                                Arr (map turn_value (messages c ++ [userMessage])))] |} ;;
         data <- settled (json response) ;;
         if ok response then
           perform (SetMessages
             (text <- get data "message" ;;
              Ok {| role := assistant; content := text |})%js)
         else
           perform (SetMessages
             (error <- get data "error" ;;
              detail <- to_string (or_else error (Str "Something went wrong")) ;;
              Ok {| role := assistant;
                    content := Str ("Error: " ++ detail) |})%js))
        (fun error =>
           perform (SetMessages
             (Ok {| role := assistant;
                    content := Str ("Error: " ++ message error) |}))))
     (perform (SetIsLoading false)))%task.

(** ** Running a handler against the state *)

(** What React can show for [{message.content}]: a string, a number, a
    boolean, [null], [undefined], or an array of such.  An object, or an
    array holding one, is no React child. *)
Fixpoint renderable (v : value) : bool :=
  match v with
  | Obj _ => false
  | Arr items => forallb renderable items
  | _ => true
  end.

(** What React throws when it is given an object to show. *)
Definition not_a_child : exn :=
  mkExn "Error" "Objects are not valid as a React child" None.

(** The render that follows [setMessages(prev => [...prev, turn])]: React
    runs the updater, which may throw while it builds the turn, and then
    shows the new turn, which throws when its content is no React child. *)
Definition shown (appended : result Turn) : result Turn :=
  (t <- appended ;;
   if renderable (content t) then Ok t else Throw not_a_child)%js.

(** React applies a queued update to the state cell and renders.  An
    updater that throws does so while React renders, and so does a new turn
    that cannot be shown: either way the component is unmounted. *)
Definition apply (ef : effect) (s : State) : result State :=
  match ef with
  | SetMessages appended =>
      match shown appended with
      | Ok t =>
          Ok (mkState (messages s ++ [t]) (input s) (isLoading s)
                      (autoScroll s) (darkMode s) (showSettings s))
      | Throw e => Throw e
      end
  | SetInput v =>
      Ok (mkState (messages s) v (isLoading s)
                  (autoScroll s) (darkMode s) (showSettings s))
  | SetIsLoading b =>
      Ok (mkState (messages s) (input s) b
                  (autoScroll s) (darkMode s) (showSettings s))
  | PreventDefault | Fetch _ => Ok s
  end.

(** Where a handler stands when it gives control back to the event loop. *)
Inductive progress : Type :=
| Returned (s : State)
| Threw (s : State) (e : exn)
| Waiting (s : State) (k : result Response -> task unit)
| RenderError (e : exn).

(** Runs [t] from the state [s] up to its next [await]: the effects in the
    order they happen, and where the handler stands. *)
Fixpoint run (t : task unit) (s : State) : list effect * progress :=
  match t with
  | Ret _ => ([], Returned s)
  | Raise e => ([], Threw s e)
  | Do ef k =>
      match apply ef s with
      | Ok s' => let (tr, p) := run k s' in (ef :: tr, p)
      | Throw e => (ef :: fst (run k s), RenderError e)
      end
  | Await rq k => ([Fetch rq], Waiting s k)
  end.

(** ** The page: the component, [document.body] and the event loop *)

(** [document.body.style], the two properties the component writes. *)
Record BodyStyle := mkStyle { backgroundColor : string; color : string }.

(** The effect that depends on [[darkMode]]. *)
Definition applyDarkMode (dark : bool) : BodyStyle :=
  if dark
  then {| backgroundColor := "#1a1a1a"; color := "#ffffff" |}
  else {| backgroundColor := "#f5f5f5"; color := "#000000" |}.

Record Page := mkPage {
  ui : State;
  style : BodyStyle;
  inflight : list (result Response -> task unit);
  trace : list effect;
  rejections : list exn;
  unmounted : option exn
}.

(** First render: the initial state, and the effects run once. *)
Definition mount : Page :=
  {| ui := initial; style := applyDarkMode (darkMode initial);
     inflight := []; trace := []; rejections := []; unmounted := None |}.

(** What the user and the network do to the page. *)
Inductive event : Type :=
| Change (v : string)
| Submit
| Settle (out : result Response)
| AutoScrollChange (checked : bool)
| SettingsClick
| CloseClick
| DarkModeChange (checked : bool).

(** After a render, the [[darkMode]] effect runs when [darkMode] differs
    from the previous render. *)
Definition rerender (before : Page) (after : State) : BodyStyle :=
  if Bool.eqb (darkMode (ui before)) (darkMode after)
  then style before
  else applyDarkMode (darkMode after).

Definition with_ui (p : Page) (s : State) : Page :=
  mkPage s (rerender p s) (inflight p) (trace p) (rejections p) (unmounted p).

(** A handler ran its effects [tr] and stands at [pr]; React renders the
    state it left.  [RenderError]: that render threw, in an updater or at a
    turn that cannot be shown, and React took the component off the
    screen. *)
Definition commit (p : Page) (waiting : list (result Response -> task unit))
    (r : list effect * progress) : Page :=
  let (tr, pr) := r in
  match pr with
  | Returned s =>
      mkPage s (rerender p s) waiting (trace p ++ tr) (rejections p) None
  | Threw s e =>
      mkPage s (rerender p s) waiting (trace p ++ tr) (rejections p ++ [e]) None
  | Waiting s k =>
      mkPage s (rerender p s) (waiting ++ [k]) (trace p ++ tr) (rejections p) None
  | RenderError e =>
      mkPage (ui p) (style p) waiting (trace p ++ tr) (rejections p) (Some e)
  end.

(** One event.  React has rendered since the event before, so the handler
    that runs is the one of the current state. *)
Definition step (p : Page) (ev : event) : Page :=
  match unmounted p with
  | Some _ => p
  | None =>
      let s := ui p in
      match ev with
      | Change v =>
          (* the text input is [disabled={isLoading}] *)
          if isLoading s then p
          else with_ui p (mkState (messages s) v (isLoading s)
                                  (autoScroll s) (darkMode s) (showSettings s))
      | Submit => commit p (inflight p) (run (sendMessage s) s)
      | Settle out =>
          match inflight p with
          | [] => p
          | k :: rest => commit p rest (run (k out) s)
          end
      | AutoScrollChange checked =>
          with_ui p (mkState (messages s) (input s) (isLoading s)
                             checked (darkMode s) (showSettings s))
      | SettingsClick =>
          with_ui p (mkState (messages s) (input s) (isLoading s)
                             (autoScroll s) (darkMode s) (negb (showSettings s)))
      | CloseClick =>
          with_ui p (mkState (messages s) (input s) (isLoading s)
                             (autoScroll s) (darkMode s) false)
      | DarkModeChange checked =>
          with_ui p (mkState (messages s) (input s) (isLoading s)
                             (autoScroll s) checked (showSettings s))
      end
  end.

Definition steps (p : Page) (evs : list event) : Page := fold_left step evs p.

(** The user ticks or unticks the Dark Mode box: [e.target.checked] is the
    opposite of what the box showed. *)
Definition toggleTheme (p : Page) : Page :=
  step p (DarkModeChange (negb (darkMode (ui p)))).

(** One conversational exchange: the user types [text], submits, and the
    request settles with [out]. *)
Definition exchange (p : Page) (x : string * result Response) : Page :=
  steps p [Change (fst x); Submit; Settle (snd x)].

Definition exchanges (p : Page) (xs : list (string * result Response)) : Page :=
  fold_left exchange xs p.

(** The pages the event loop can reach. *)
Inductive reachable : Page -> Prop :=
| reach_mount : reachable mount
| reach_step p ev : reachable p -> reachable (step p ev).

(** ** The same, described from outside *)

Definition userMessage (c : State) : Turn :=
  {| role := user; content := Str (input c) |}.

(** The request [sendMessage] sends from the render [c]. *)
Definition request (c : State) : Request :=
  {| url := "/api/chat";
     method := "POST";
     headers := [("Content-Type", "application/json")];
     body := Obj [("messages", Arr (map turn_value (messages c ++ [userMessage c])))] |}.

(** The state once the three synchronous updates of an accepted call are
    applied. *)
Definition sent (c s : State) : State :=
  mkState (messages s ++ [userMessage c]) "" true
          (autoScroll s) (darkMode s) (showSettings s).

(** The turn an exchange ends with, by the way the request settled. *)
Definition closing_turn (out : result Response) : result Turn :=
  match out with
  | Throw e => Ok {| role := assistant; content := Str ("Error: " ++ message e) |}
  | Ok response =>
      match json response with
      | Throw e => Ok {| role := assistant; content := Str ("Error: " ++ message e) |}
      | Ok data =>
          if ok response then
            (text <- get data "message" ;;
             Ok {| role := assistant; content := text |})%js
          else
            (error <- get data "error" ;;
             detail <- to_string (or_else error (Str "Something went wrong")) ;;
             Ok {| role := assistant;
                   content := Str ("Error: " ++ detail) |})%js
      end
  end.

(** The state once an exchange has settled with the turn [t]. *)
Definition closed (t : Turn) (s : State) : State :=
  mkState (messages s ++ [t]) (input s) false
          (autoScroll s) (darkMode s) (showSettings s).

(** No exchange is under way and the component is on screen. *)
Definition idle (p : Page) : Prop :=
  unmounted p = None /\ inflight p = [] /\ isLoading (ui p) = false.

(** [document.body] shows the colours of the current theme. *)
Definition themed (p : Page) : Prop :=
  style p = applyDarkMode (darkMode (ui p)).

(** The request settled in a way that lets the component append a turn and
    show it. *)
Definition delivers (out : result Response) : Prop :=
  exists t, shown (closing_turn out) = Ok t.

(** The request was answered with a success status and a JSON payload
    whose [message] can be read: [text] is the reply. *)
Definition succeeds_with (text : value) (out : result Response) : Prop :=
  exists response data,
    out = Ok response /\ ok response = true /\ json response = Ok data
    /\ get data "message" = Ok text.

(** A successful exchange: the answer carries the reply as a text. *)
Definition successful (out : result Response) : Prop :=
  exists text : string, succeeds_with (Str text) out.

(** The request failed, as the component sees it: [fetch] rejected, the
    body was not JSON, or the status was not a success. *)
Definition failed (out : result Response) : Prop :=
  match out with
  | Throw _ => True
  | Ok response =>
      match json response with
      | Throw _ => True
      | Ok _ => ok response = false
      end
  end.

(** [k] is what [sendMessage] still has to do once its request settles. *)
Definition closes (k : result Response -> task unit) : Prop :=
  forall out s,
    run (k out) s =
      ([SetMessages (closing_turn out); SetIsLoading false],
       match shown (closing_turn out) with
       | Ok t => Returned (closed t s)
       | Throw e => RenderError e
       end).

(** While the component is on screen, [isLoading] is true exactly when a
    request is in flight, and at most one is. *)
Definition single_flight (p : Page) : Prop :=
  unmounted p = None ->
  (inflight p = [] /\ isLoading (ui p) = false)
  \/ (exists k, inflight p = [k] /\ isLoading (ui p) = true /\ closes k).

(** A turn that reports a failure: an assistant turn whose content starts
    with ["Error: "]. *)
Definition error_turn (diagnostic : string) : Turn :=
  {| role := assistant; content := Str ("Error: " ++ diagnostic) |}.

End ChatInterface.

(* ===================================================================== *)
(** * The /api/chat route *)
(* ===================================================================== *)

Module ChatApi.
Import JS.

(** [req]: the method, and the body as the framework parsed it. *)
Record Req := mkReq { method : string; body : value }.

(** [res.status(code).json(payload)] *)
Record Res := mkRes { code : Z; payload : value }.

(** What one call of the route leaves behind: the answer, the arguments of
    the calls to [openrouter.chat.completions.create], and the errors
    written to the console. *)
Record Served := mkServed {
  answer : Res;
  gateway_calls : list value;
  console : list exn
}.

(** The Completion Gateway as the route sees it through the SDK: the call
    returns a completion, or throws (no connection, or a status that is not
    a success, which the SDK turns into an error carrying [status]). *)
Definition Gateway := value -> result value.

(** [completion.choices[0]?.message?.content] *)
Definition reply_of (completion : value) : result value :=
  (choices <- get completion "choices" ;;
   first <- get0 choices ;;
   message <- get_opt first "message" ;;
   get_opt message "content")%js.

(** The argument of [openrouter.chat.completions.create]. *)
Definition create_args (messages : value) : value :=
  Obj [("model", Str "meta-llama/llama-3.2-3b-instruct:free");
       ("messages", messages);
       ("max_tokens", Num "500");
       ("temperature", Num "0.7")].

(** The body of the [try]: the answer it returns or the error it throws,
    with the gateway calls made on the way. *)
Definition attempt (openrouter : Gateway) (req : Req)
  : result Res * list value :=
  match destructure "req.body" (body req) "messages" with
  | Throw e => (Throw e, [])
  | Ok messages =>
      if negb (truthy messages) || negb (isArray messages) then
        (Ok {| code := 400;
               payload := Obj [("error", Str "Messages array is required")] |},
         [])
      else
        let args := create_args messages in
        ((completion <- openrouter args ;;
          reply <- reply_of completion ;;
          if negb (truthy reply) then
            Ok {| code := 500;
                  payload := Obj [("error", Str "No response from API")] |}
          else
            Ok {| code := 200; payload := Obj [("message", reply)] |})%js,
         [args])
  end.

(** The [catch]: three statuses have an answer of their own. *)
Definition classify (development : bool) (error : exn) : Res :=
  match status error with
  | Some 401%Z =>
      {| code := 401; payload := Obj [("error", Str "Invalid API key")] |}
  | Some 429%Z =>
      {| code := 429; payload := Obj [("error", Str "Rate limit exceeded")] |}
  | Some 402%Z =>
      {| code := 402; payload := Obj [("error", Str "Insufficient credits")] |}
  | _ =>
      {| code := 500;
         payload := Obj [("error", Str "Internal server error");
                         ("details", if development then Str (message error)
                                     else Undefined)] |}
  end.

(** [handler(req, res)]; [development] is
    [process.env.NODE_ENV === 'development']. *)
Definition handler (development : bool) (openrouter : Gateway) (req : Req)
  : Served :=
  if negb (method req =? "POST") then
    {| answer := {| code := 405;
                    payload := Obj [("error", Str "Method not allowed")] |};
       gateway_calls := []; console := [] |}
  else
    match attempt openrouter req with
    | (Ok res, calls) =>
        {| answer := res; gateway_calls := calls; console := [] |}
    | (Throw error, calls) =>
        {| answer := classify development error;
           gateway_calls := calls; console := [error] |}
    end.

(** An answer that carries only an error text. *)
Definition error_body (text : string) : value := Obj [("error", Str text)].

End ChatApi.

(* ===================================================================== *)
(** * The browser talking to the route *)
(* ===================================================================== *)

Module Deployment.
Import JS.

(** What stands between [fetch('/api/chat')] and the route. *)
Inductive Network : Type :=
| Up                                 (* the request reaches the route *)
| Down (e : exn)                     (* [fetch] rejects *)
| ErrorPage (status : Z) (e : exn)   (* the host answers with a page that
                                        is not JSON: [response.json()] rejects *)
| Foreign (status : Z) (payload : value).
                                     (* the host answers in the route's place,
                                        with a JSON payload of its own *)

(** The route as [fetch] reaches it: the request body is parsed from its
    JSON text, the answer is serialised by [res.json]. *)
Definition serve (development : bool) (openrouter : ChatApi.Gateway)
    (rq : ChatInterface.Request) : ChatApi.Served :=
  ChatApi.handler development openrouter
    {| ChatApi.method := ChatInterface.method rq;
       ChatApi.body := over_the_wire (ChatInterface.body rq) |}.

Definition respond (net : Network) (development : bool)
    (openrouter : ChatApi.Gateway) (rq : ChatInterface.Request)
  : result ChatInterface.Response :=
  match net with
  | Down e => Throw e
  | ErrorPage st e =>
      Ok {| ChatInterface.status := st; ChatInterface.json := Throw e |}
  | Foreign st payload =>
      Ok {| ChatInterface.status := st; ChatInterface.json := Ok payload |}
  | Up =>
      let res := ChatApi.answer (serve development openrouter rq) in
      Ok {| ChatInterface.status := ChatApi.code res;
            ChatInterface.json := Ok (over_the_wire (ChatApi.payload res)) |}
  end.

(** Everything outside the component and the route. *)
Record World := mkWorld {
  net : Network;
  development : bool;
  openrouter : ChatApi.Gateway
}.

Definition reply (w : World) (rq : ChatInterface.Request)
  : result ChatInterface.Response :=
  respond (net w) (development w) (openrouter w) rq.

(** [sendMessage] called on the state [s] and run to its end, the request
    it sends being answered by [w]: the effects in order, and where the
    handler stands. *)
Definition converse (w : World) (s : ChatInterface.State)
  : list ChatInterface.effect * ChatInterface.progress :=
  match ChatInterface.run (ChatInterface.sendMessage s) s with
  | (tr, ChatInterface.Waiting s1 k) =>
      match last tr ChatInterface.PreventDefault with
      | ChatInterface.Fetch rq =>
          let (tr', pr) := ChatInterface.run (k (reply w rq)) s1 in
          ((tr ++ tr')%list, pr)
      | _ => (tr, ChatInterface.Waiting s1 k)
      end
  | r => r
  end.

(** A turn as the route receives it. *)
Definition wire_turn (t : ChatInterface.Turn) : value :=
  over_the_wire (ChatInterface.turn_value t).

(** What the gateway is called with when the state [s] is submitted. *)
Definition gateway_args (s : ChatInterface.State) : value :=
  ChatApi.create_args
    (Arr (map wire_turn
              (ChatInterface.messages s ++ [ChatInterface.userMessage s])%list)).

(** The completion carries no usable reply text: the content of the first
    choice's message is absent or empty, or there is no list of choices to
    take it from. *)
Definition no_reply_text (completion : value) : Prop :=
  match ChatApi.reply_of completion with
  | Ok v => v = Undefined \/ v = Null \/ v = Str ""
  | Throw _ => True
  end.

(** The ways an exchange submitted from [s] fails in [w] and is reported to
    the user.  A foreign answer counts when its [error] can be read and put
    into the text of a turn: a payload that is [null], and an [error] whose
    conversion to a string throws, are the cases left out, and there the
    component appends nothing. *)
Inductive Fails (w : World) (s : ChatInterface.State) : Prop :=
| no_network e :
    net w = Down e -> Fails w s
| error_page st e :
    net w = ErrorPage st e -> Fails w s
| foreign_error st payload error detail :
    net w = Foreign st payload ->
    ((200 <=? st) && (st <=? 299))%Z = false ->
    get payload "error" = Ok error ->
    to_string (or_else error (Str "Something went wrong")) = Ok detail ->
    Fails w s
| gateway_error e :
    net w = Up -> openrouter w (gateway_args s) = Throw e -> Fails w s
| malformed_payload completion :
    net w = Up -> openrouter w (gateway_args s) = Ok completion ->
    no_reply_text completion -> Fails w s.

(** The code and the message the specification gives each failure kind. *)
Definition failure_kind (st : option Z) : Z * string :=
  match st with
  | Some 401%Z => (401%Z, "Invalid API key")
  | Some 429%Z => (429%Z, "Rate limit exceeded")
  | Some 402%Z => (402%Z, "Insufficient credits")
  | _ => (500%Z, "Internal server error")
  end.

(** The diagnostic the user is shown when an exchange fails in [w]. *)
Definition diagnostic (w : World) (s : ChatInterface.State) : string :=
  match net w with
  | Down e | ErrorPage _ e => message e
  | Foreign _ payload =>
      match (error <- get payload "error" ;;
             to_string (or_else error (Str "Something went wrong")))%js with
      | Ok detail => detail
      | Throw e => message e
      end
  | Up =>
      match openrouter w (gateway_args s) with
      | Throw e => snd (failure_kind (status e))
      | Ok completion =>
          match ChatApi.reply_of completion with
          | Throw e => snd (failure_kind (status e))
          | Ok _ => "No response from API"
          end
      end
  end.

End Deployment.

(* ===================================================================== *)
(** * src/lib/database.js *)
(* ===================================================================== *)

Module Database.
Import JS.

(** [CHAT_TABLES] *)
Definition CONVERSATIONS := "conversations".
Definition MESSAGES := "messages".
Definition USERS := "users".

(** The calls the module makes on the Supabase client, each a builder chain
    that is awaited once. *)
Inductive Query : Type :=
| Rpc (fn : string)
| InsertOne (table : string) (row : value)
| SelectWhere (table column : string) (v : value)
              (order : option (string * bool)) (single : bool).

(** What is thrown inside a [try]: an [Error] object (the chain throws or
    its promise rejects), or the [error] of an answer, which the module
    throws itself. *)
Inductive Thrown : Type :=
| Failure (e : exn)
| AnswerError (error : value).

(** The client: an awaited chain gives an answer [{ data, error }], or
    fails. *)
Definition Client := Query -> result value.

(** [supabaseUrl && supabaseAnonKey ? createClient(...) : null], the value
    of the module's [supabase].  [createClient] throws on a URL it does not
    accept; the call stands at the top of the module, so the module then
    fails to load and none of its functions can be called. *)
Definition connect (createClient : value -> value -> result Client)
    (supabaseUrl supabaseAnonKey : value) : result (option Client) :=
  if truthy supabaseUrl && truthy supabaseAnonKey
  then (client <- createClient supabaseUrl supabaseAnonKey ;; Ok (Some client))%js
  else Ok None.

Inductive Line : Type :=
| log (text : string)
| error (label : string) (what : Thrown).

(** How a call of an exported function ends. *)
Inductive Ending : Type :=
| Returns (v : value)
| Propagates (t : Thrown).

Definition Run : Type := Ending * list Line.

(** [const { data, error } = await chain; if (error) throw error;] and what
    is left is [data]. *)
Definition data_of (awaited : result value) : Thrown + value :=
  match awaited with
  | Throw e => inl (Failure e)
  | Ok answer =>
      match destructure "(intermediate value)" answer "data",
            destructure "(intermediate value)" answer "error" with
      | Ok data, Ok err => if truthy err then inl (AnswerError err) else inr data
      | Throw e, _ | _, Throw e => inl (Failure e)
      end
  end.

(** [try { return body } catch (error) { console.error(label, error);
    return fallback }] *)
Definition guarded (body : Thrown + value) (label : string) (fallback : value)
  : Run :=
  match body with
  | inr v => (Returns v, [])
  | inl t => (Returns fallback, [error label t])
  end.

Section Exports.

(** The module's [supabase]: the client, or [null]. *)
Variable supabase : option Client.

Definition saveConversation (conversationData : value) : Run :=
  match supabase with
  | None => (Returns Null, [])
  | Some client =>
      guarded (data_of (client (InsertOne CONVERSATIONS conversationData)))
              "Error saving conversation:" Null
  end.

Definition saveMessage (messageData : value) : Run :=
  match supabase with
  | None => (Returns Null, [])
  | Some client =>
      guarded (data_of (client (InsertOne MESSAGES messageData)))
              "Error saving message:" Null
  end.

(** [return data || []] *)
Definition or_empty (r : Thrown + value) : Thrown + value :=
  match r with
  | inr data => inr (or_else data (Arr []))
  | inl t => inl t
  end.

Definition getConversationHistory (conversationId : value) : Run :=
  match supabase with
  | None => (Returns (Arr []), [])
  | Some client =>
      guarded (or_empty (data_of (client
                 (SelectWhere MESSAGES "conversation_id" conversationId
                              (Some ("created_at", true)) false))))
              "Error fetching conversation history:" (Arr [])
  end.

Definition getUserConversations (userId : value) : Run :=
  match supabase with
  | None => (Returns (Arr []), [])
  | Some client =>
      guarded (or_empty (data_of (client
                 (SelectWhere CONVERSATIONS "user_id" userId
                              (Some ("updated_at", false)) false))))
              "Error fetching user conversations:" (Arr [])
  end.

Definition createUser (userData : value) : Run :=
  match supabase with
  | None => (Returns Null, [])
  | Some client =>
      guarded (data_of (client (InsertOne USERS userData)))
              "Error creating user:" Null
  end.

Definition getUserById (userId : value) : Run :=
  match supabase with
  | None => (Returns Null, [])
  | Some client =>
      guarded (data_of (client (SelectWhere USERS "id" userId None true)))
              "Error fetching user:" Null
  end.

(** [x.includes('already exists')]: on a string the substring test, on an
    array the membership test; any other value has no such method. *)
Definition includes_already_exists (x : value) (expr : string) : result bool :=
  match x with
  | Str s => Ok (includes s "already exists")
  | Arr items =>
      Ok (existsb (fun i => match i with
                            | Str s => s =? "already exists"
                            | _ => false
                            end) items)
  | Undefined | Null => Throw (cannot_read x "includes")
  | _ => Throw (TypeError (expr ++ ".includes is not a function"))
  end.

(** One of the three steps of [initializeDatabase]:
    [const { error: e } = await supabase.rpc(fn);
     if (e && !e.message.includes('already exists')) console.error(label, e);] *)
Definition create_table (client : Client) (fn e label : string)
  : Thrown + list Line :=
  match client (Rpc fn) with
  | Throw x => inl (Failure x)
  | Ok answer =>
      match destructure "(intermediate value)" answer "error" with
      | Throw x => inl (Failure x)
      | Ok err =>
          if truthy err then
            match (m <- get err "message" ;;
                   includes_already_exists m (e ++ ".message"))%js with
            | Throw x => inl (Failure x)
            | Ok true => inr []
            | Ok false => inr [error label (AnswerError err)]
            end
          else inr []
      end
  end.

(** The lines a failed step had written are kept: they were printed before
    the step after them threw. *)
Fixpoint create_tables (client : Client)
    (todo : list (string * string * string)) : option Thrown * list Line :=
  match todo with
  | [] => (None, [])
  | (fn, e, label) :: rest =>
      match create_table client fn e label with
      | inl t => (Some t, [])
      | inr lines =>
          let (t, more) := create_tables client rest in (t, (lines ++ more)%list)
      end
  end.

Definition initializeDatabase : Run :=
  match supabase with
  | None =>
      (Returns Undefined,
       [log "Supabase not configured - skipping database initialization"])
  | Some client =>
      match create_tables client
              [("create_conversations_table", "conversationsError",
                "Error creating conversations table:");
               ("create_messages_table", "messagesError",
                "Error creating messages table:");
               ("create_users_table", "usersError",
                "Error creating users table:")] with
      | (None, lines) =>
          (Returns Undefined,
           (lines ++ [log "Database tables initialized successfully"])%list)
      | (Some t, lines) =>
          (Returns Undefined,
           (lines ++ [error "Database initialization error:" t])%list)
      end
  end.

(** ** The seven exported functions, as one family *)

Inductive Operation : Type :=
| InitializeDatabase
| SaveConversation (conversationData : value)
| SaveMessage (messageData : value)
| GetConversationHistory (conversationId : value)
| GetUserConversations (userId : value)
| CreateUser (userData : value)
| GetUserById (userId : value).

Definition call (op : Operation) : Run :=
  match op with
  | InitializeDatabase => initializeDatabase
  | SaveConversation d => saveConversation d
  | SaveMessage d => saveMessage d
  | GetConversationHistory i => getConversationHistory i
  | GetUserConversations u => getUserConversations u
  | CreateUser d => createUser d
  | GetUserById u => getUserById u
  end.

(** What the caller gets when nothing could be stored or fetched: [null]
    from the functions that give one record, an empty array from those that
    give a list.  [initializeDatabase] has no [return] value. *)
Definition fallback (op : Operation) : value :=
  match op with
  | InitializeDatabase => Undefined
  | GetConversationHistory _ | GetUserConversations _ => Arr []
  | SaveConversation _ | SaveMessage _ | CreateUser _ | GetUserById _ => Null
  end.

(** The chain a function awaits; [initializeDatabase] awaits three. *)
Definition queries (op : Operation) : list Query :=
  match op with
  | InitializeDatabase =>
      [Rpc "create_conversations_table"; Rpc "create_messages_table";
       Rpc "create_users_table"]
  | SaveConversation d => [InsertOne CONVERSATIONS d]
  | SaveMessage d => [InsertOne MESSAGES d]
  | GetConversationHistory i =>
      [SelectWhere MESSAGES "conversation_id" i (Some ("created_at", true)) false]
  | GetUserConversations u =>
      [SelectWhere CONVERSATIONS "user_id" u (Some ("updated_at", false)) false]
  | CreateUser d => [InsertOne USERS d]
  | GetUserById u => [SelectWhere USERS "id" u None true]
  end.

(** The awaited chain failed: it threw or rejected, it gave no answer
    object, or the answer carries an [error]. *)
Definition query_fails (client : Client) (q : Query) : Prop :=
  match client q with
  | Throw _ => True
  | Ok answer =>
      match answer with
      | Undefined | Null => True
      | _ => exists err, get answer "error" = Ok err /\ truthy err = true
      end
  end.

(** Persistence is not configured, or a chain of the call fails. *)
Definition unavailable (op : Operation) : Prop :=
  match supabase with
  | None => True
  | Some client => exists q, In q (queries op) /\ query_fails client q
  end.

End Exports.

End Database.

(* ===================================================================== *)
(** * The scenarios of the specification *)
(* ===================================================================== *)

Module Scenario.
Import JS ChatInterface Deployment.

(** The first render, with [text] typed into the input. *)
Definition typed (text : string) : State :=
  mkState [greeting] text false true false false.

(** A completion whose first choice says [text]. *)
Definition completion_saying (text : string) : value :=
  Obj [("id", Str "gen-1");
       ("choices",
        Arr [Obj [("index", Num "0");
                  ("message", Obj [("role", Str "assistant");
                                   ("content", Str text)])]])].

(** A gateway that answers every call with [text]. *)
Definition saying (text : string) : World :=
  {| net := Up; development := false;
     openrouter := fun _ => Ok (completion_saying text) |}.

(** A gateway whose transport answers every call with the status [st]. *)
Definition refusing (st : Z) : World :=
  {| net := Up; development := false;
     openrouter := fun _ =>
       Throw {| name := "APIError"; message := "request failed";
                JS.status := Some st |} |}.

(** No connection between the browser and the route. *)
Definition offline : World :=
  {| net := Down (TypeError "Failed to fetch"); development := false;
     openrouter := fun _ => Ok Null |}.

(** The answer of the route to a success of the gateway. *)
Definition answered (text : string) : result Response :=
  Ok {| status := 200; json := Ok (Obj [("message", Str text)]) |}.

(** The answer of the route to a 401 of the gateway. *)
Definition unauthorized : result Response :=
  Ok {| status := 401; json := Ok (Obj [("error", Str "Invalid API key")]) |}.

(** A Supabase client whose every chain reports an error. *)
Definition broken : Database.Client :=
  fun _ => Ok (Obj [("data", Null);
                    ("error", Obj [("message", Str "permission denied")])]).

End Scenario.

(* ===================================================================== *)
(** * src/components/ChatInterface.js: what the render shows *)
(* ===================================================================== *)

Module ChatView.
Import JS ChatInterface.

(** [disabled={isLoading || !input.trim()}] on the Send button *)
Definition submitDisabled (s : State) : bool :=
  isLoading s || negb (truthy (Str (trim (input s)))).

(** The roles of a log alternate, starting with [first]. *)
Fixpoint alternates (first : Role) (log : list Turn) : bool :=
  match log with
  | [] => true
  | t :: rest =>
      match first, role t with
      | user, user => alternates assistant rest
      | assistant, assistant => alternates user rest
      | _, _ => false
      end
  end.

(** The roles alternate from the greeting on, and the log has an even
    number of turns exactly while a request is pending. *)
Definition well_shaped (s : State) : Prop :=
  alternates assistant (messages s) = true
  /\ Nat.odd (length (messages s)) = negb (isLoading s).

(** The answers the component can put on the screen: [fetch] rejected, the
    body was not JSON, a success whose [message] can be read and shown, or
    another status whose [error] can be read and, when it is truthy, put
    into the text of a turn. *)
Inductive presentable : result Response -> Prop :=
| rejected e : presentable (Throw e)
| not_json st e : presentable (Ok {| status := st; json := Throw e |})
| reply_shown response data text :
    json response = Ok data -> ok response = true ->
    get data "message" = Ok text -> renderable text = true ->
    presentable (Ok response)
| error_told response data error detail :
    json response = Ok data -> ok response = false ->
    get data "error" = Ok error ->
    to_string (or_else error (Str "Something went wrong")) = Ok detail ->
    presentable (Ok response).

End ChatView.

(* ===================================================================== *)
(** * src/lib/database.js: what the console shows *)
(* ===================================================================== *)

Module DatabaseView.
Import JS Database.

(** The functions that give a list. *)
Definition gives_list (op : Operation) : bool :=
  match op with
  | GetConversationHistory _ | GetUserConversations _ => true
  | _ => false
  end.

(** What a chain that failed in the way [query_fails] says has thrown. *)
Definition thrown_by (awaited : result value) : option Thrown :=
  match data_of awaited with
  | inl t => Some t
  | inr _ => None
  end.

(** The fields of an answer of [supabase.rpc] as [initializeDatabase] can
    read them: no [error], or an [error] whose [message] is a string. *)
Definition readable (fields : list (string * value)) : Prop :=
  truthy (lookup "error" fields) = false
  \/ exists efields text,
       lookup "error" fields = Obj efields /\ lookup "message" efields = Str text.

(** The line [initializeDatabase] writes for one answer: none when there
    is no error or the error says the table already exists. *)
Definition reported (fields : list (string * value)) (label : string) : list Line :=
  let err := lookup "error" fields in
  if truthy err then
    match get err "message" with
    | Ok (Str text) =>
        if includes text "already exists" then []
        else [error label (AnswerError err)]
    | _ => []
    end
  else [].

End DatabaseView.

(* ===================================================================== *)
(** * The scripts: how a Node process runs and ends *)
(* ===================================================================== *)

(** The scripts print to the console and append to a debug log, inside a
    [try] of its own.  Neither changes what a script does next, and neither
    is modelled: a script is what it asks of the outside (queries,
    commands, files), in order, and the way it ends. *)
Module Process.
Import JS.

Inductive ending (A : Type) : Type :=
| Done (a : A)          (* control reaches the end *)
| Exit (code : Z)       (* [process.exit(code)] *)
| Uncaught (e : exn).   (* an exception nobody catches *)
Arguments Done {A} a.
Arguments Exit {A} code.
Arguments Uncaught {A} e.

(** What was asked of the outside, in order, and the ending. *)
Definition proc (E A : Type) : Type := list E * ending A.

Definition ret {E A} (a : A) : proc E A := ([], Done a).
Definition exit {E A} (code : Z) : proc E A := ([], Exit code).
Definition throw {E A} (e : exn) : proc E A := ([], Uncaught e).

Definition andThen {E A B} (m : proc E A) (k : A -> proc E B) : proc E B :=
  match m with
  | (did, Done a) => let (more, r) := k a in ((did ++ more)%list, r)
  | (did, Exit code) => (did, Exit code)
  | (did, Uncaught e) => (did, Uncaught e)
  end.

Declare Scope proc_scope.
Delimit Scope proc_scope with proc.
Notation "x <- m ;; k" := (andThen m (fun x => k))
  (at level 61, m at next level, right associativity) : proc_scope.
Notation "m ;; k" := (andThen m (fun _ => k))
  (at level 61, right associativity) : proc_scope.

Definition succeeded {A} (r : result A) : bool :=
  match r with Ok _ => true | Throw _ => false end.

(** [v === 'text'] *)
Definition is_string (v : value) (text : string) : bool :=
  match v with Str s => s =? text | _ => false end.

End Process.

(* ===================================================================== *)
(** * The database setup script (src/unnamed/part_000) *)
(* ===================================================================== *)

Module SetupDatabase.
Import JS Process.

(** The four SQL texts the script sends through [exec_sql], named by what
    they create; the text itself is not modelled. *)
Inductive Statement : Type :=
| UsersTable
| ConversationsTable
| MessagesTable
| UpdatedAtTriggers.

Inductive Query : Type :=
| SelectCount (table : string)      (* [.from(table).select('count').limit(1)] *)
| ExecSql (sql : Statement).        (* [.rpc('exec_sql', { sql })] *)

Definition Client := Query -> result value.

(** [await chain]: the query goes out, and the promise settles. *)
Definition await (supabase : Client) (q : Query) : proc Query (result value) :=
  ([q], Done (supabase q)).

(** [checkConnection] once the chain has settled: [true] at the end of the
    [try], [false] from the [catch], which is reached when the chain or the
    destructuring throws and when the function throws the error of the
    answer itself, its code being another than [PGRST116]. *)
Definition connection_test (awaited : result value) : bool :=
  match (answer <- awaited ;;
         _ <- destructure "(intermediate value)" answer "data" ;;
         destructure "(intermediate value)" answer "error")%js with
  | Throw _ => false
  | Ok error =>
      if truthy error then
        match get error "code" with
        | Ok code => is_string code "PGRST116"
        | Throw _ => false
        end
      else true
  end.

Definition checkConnection (supabase : Client) : proc Query bool :=
  (awaited <- await supabase (SelectCount "users") ;;
   ret (connection_test awaited))%proc.

(** One [const { error } = await supabase.rpc('exec_sql', ...)] with the
    [if (error) ... else ...] after it, which only prints. *)
Definition exec_sql (supabase : Client) (sql : Statement)
  : proc Query (result unit) :=
  (awaited <- await supabase (ExecSql sql) ;;
   ret (answer <- awaited ;;
        _ <- destructure "(intermediate value)" answer "error" ;;
        Ok tt)%js)%proc.

(** [catch (error) { ...; process.exit(1) }] *)
Definition or_exit {E A} (m : proc E (result A)) : proc E A :=
  (r <- m ;;
   match r with
   | Ok a => ret a
   | Throw _ => exit 1
   end)%proc.

Definition createTables (supabase : Client) : proc Query unit :=
  (or_exit (exec_sql supabase UsersTable) ;;
   or_exit (exec_sql supabase ConversationsTable) ;;
   or_exit (exec_sql supabase MessagesTable) ;;
   or_exit (exec_sql supabase UpdatedAtTriggers) ;;
   ret tt)%proc.

Definition main (supabase : Client) : proc Query unit :=
  (isConnected <- checkConnection supabase ;;
   if negb isConnected then exit 1
   else createTables supabase)%proc.

(** The script from its first line: the two settings are checked, then the
    client is made, at the top of the module and outside every [try].
    [createClient] throws on a URL it does not accept, and nothing catches
    that: the script ends there, before [main] is called. *)
Definition script (createClient : value -> value -> result Client)
    (supabaseUrl supabaseServiceKey : value) : proc Query unit :=
  if negb (truthy supabaseUrl) || negb (truthy supabaseServiceKey)
  then exit 1
  else
    match createClient supabaseUrl supabaseServiceKey with
    | Ok supabase => main supabase
    | Throw e => throw e
    end.

(** Everything the script can send, in the order it sends it. *)
Definition plan : list Query :=
  [SelectCount "users"; ExecSql UsersTable; ExecSql ConversationsTable;
   ExecSql MessagesTable; ExecSql UpdatedAtTriggers].

(** The connection test fails: the chain throws or gives no answer object,
    or the answer carries an error whose code is not [PGRST116]. *)
Definition unreachable (supabase : Client) : Prop :=
  match supabase (SelectCount "users") with
  | Throw _ => True
  | Ok Undefined | Ok Null => True
  | Ok answer =>
      exists error code,
        get answer "error" = Ok error /\ truthy error = true
        /\ get error "code" = Ok code /\ is_string code "PGRST116" = false
  end.

(** The connection test passes: an answer object with no error, or with
    the error that says the table is not there yet. *)
Definition reachable (supabase : Client) : Prop :=
  exists fields,
    supabase (SelectCount "users") = Ok (Obj fields)
    /\ (truthy (lookup "error" fields) = false
        \/ exists efields,
             lookup "error" fields = Obj efields
             /\ lookup "code" efields = Str "PGRST116").

End SetupDatabase.

(* ===================================================================== *)
(** * The Netlify deployment script (src/unnamed/part_001) *)
(* ===================================================================== *)

Module DeployNetlify.
Import JS Process.

Inductive Action : Type :=
| Run (command : string)                 (* [execSync(command, ...)] *)
| Write (path : string) (what : value).  (* [fs.writeFileSync(path,
                                            JSON.stringify(what, null, 2))] *)

(** What the script finds around it. *)
Record Host := mkHost {
  env : string -> value;                 (* [process.env[name]] *)
  execSync : string -> result string;
  writeFileSync : string -> result unit
}.

Definition run (host : Host) (command : string) : proc Action (result string) :=
  ([Run command], Done (execSync host command)).

Definition requiredEnvVars : list string := ["OPENROUTER_API_KEY"].

Definition checkEnvironment (host : Host) : proc Action bool :=
  let missing := filter (fun envVar => negb (truthy (env host envVar)))
                        requiredEnvVars in
  ret (match missing with [] => true | _ :: _ => false end).

(** Both the [try] and the [catch] end in [return true]. *)
Definition checkNetlifyCLI (host : Host) : proc Action bool :=
  (_ <- run host "npx netlify --version" ;; ret true)%proc.

Definition buildApplication (host : Host) : proc Action bool :=
  (installed <- run host "npm install --legacy-peer-deps" ;;
   match installed with
   | Throw _ => ret false
   | Ok _ =>
       built <- run host "npm run build" ;;
       ret (succeeded built)
   end)%proc.

(** The status command has a [try] of its own, whose [catch] only prints. *)
Definition deployToNetlify (host : Host) : proc Action bool :=
  (_ <- run host "npx netlify status" ;;
   deployed <- run host "npx netlify deploy --prod --dir=.next" ;;
   ret (succeeded deployed))%proc.

Definition netlifyConfig : value :=
  Obj [("build", Obj [("command", Str "npm run build"); ("publish", Str ".next")]);
       ("functions", Obj [("directory", Str "netlify/functions")]);
       ("headers",
        Arr [Obj [("for", Str "/api/*");
                  ("values",
                   Obj [("Access-Control-Allow-Origin", Str "*");
                        ("Access-Control-Allow-Headers", Str "Content-Type");
                        ("Access-Control-Allow-Methods", Str "GET, POST, OPTIONS")])]]);
       ("redirects",
        Arr [Obj [("from", Str "/api/*");
                  ("to", Str "/.netlify/functions/:splat");
                  ("status", Num "200")]])].

Definition setupNetlifyConfig (host : Host) : proc Action bool :=
  ([Write "netlify.toml" netlifyConfig],
   Done (succeeded (writeFileSync host "netlify.toml"))).

Definition deploy (host : Host) : proc Action unit :=
  (ready <- checkEnvironment host ;;
   if negb ready then exit 1 else
   _ <- checkNetlifyCLI host ;;
   _ <- setupNetlifyConfig host ;;
   built <- buildApplication host ;;
   if negb built then exit 1 else
   deployed <- deployToNetlify host ;;
   if negb deployed then exit 1 else
   ret tt)%proc.

(** The command that publishes the site. *)
Definition publish : string := "npx netlify deploy --prod --dir=.next".

End DeployNetlify.

(* ===================================================================== *)
(** * src/scripts/test-api.js *)
(* ===================================================================== *)

Module TestApi.
Import JS Process.

(** The request, as far as the script decides it: where it goes, the
    bearer credential, and the value whose JSON text is the body. *)
Record Sent := mkSent {
  hostname : string;
  path : string;
  method : string;
  authorization : string;
  postData : value
}.

(** What comes of it: the ['error'] event of the request, or a response
    with its status and the chunks of its body up to ['end']. *)
Inductive Reply : Type :=
| Errored (e : exn)
| Responded (statusCode : Z) (chunks : list string).

Record Host := mkHost {
  OPENROUTER_API_KEY : value;             (* [process.env.OPENROUTER_API_KEY] *)
  request : Sent -> Reply;
  JSON_parse : string -> result value
}.

(** [text] between double quotes *)
Definition quoted (text : string) : string :=
  String (ascii_of_nat 34) (text ++ String (ascii_of_nat 34) "").

(** [`${key}`] for a variable of the environment.  [process.env] holds
    strings, and a variable that is not set reads [undefined]: the
    conversion never meets an object, the one case where it throws. *)
Definition env_text (key : value) : string :=
  match to_string key with Ok text => text | Throw _ => "" end.

Definition testRequest (key : value) : Sent :=
  {| hostname := "openrouter.ai";
     path := "/api/v1/chat/completions";
     method := "POST";
     authorization := "Bearer " ++ env_text key;
     postData :=
       Obj [("messages",
             Arr [Obj [("role", Str "user");
                       ("content",
                        Str ("Hello! Please respond with just " ++ quoted "API test successful"
                             ++ " to confirm you are working."))]]);
            ("model", Str "meta-llama/llama-3.2-3b-instruct:free");
            ("max_tokens", Num "50");
            ("temperature", Num "0.1")] |}.

(** [data += chunk] over the chunks, from [''] *)
Definition received (chunks : list string) : string :=
  fold_left String.append chunks "".

(** What the promise of [testOpenRouterAPI] resolves with. *)
Definition testOpenRouterAPI (host : Host) : proc Sent bool :=
  if negb (truthy (OPENROUTER_API_KEY host)) then ret false
  else
    let rq := testRequest (OPENROUTER_API_KEY host) in
    ([rq],
     Done (match request host rq with
           | Errored _ => false
           | Responded statusCode chunks =>
               match JSON_parse host (received chunks) with
               | Ok _ => (statusCode =? 200)%Z
               | Throw _ => false
               end
           end)).

Definition main (host : Host) : proc Sent bool :=
  testOpenRouterAPI host.

(** [main().then((success) => process.exit(success ? 0 : 1))] *)
Definition script (host : Host) : proc Sent unit :=
  (success <- main host ;; exit (if success then 0 else 1))%proc.

End TestApi.

(* ===================================================================== *)
(** * The pre-development checks (src/scripts/generate-run-report.js,
      second part) *)
(* ===================================================================== *)

Module PreDevChecks.
Import JS Process.

(** [a < b] on strings: by code units, a proper prefix first. *)
Fixpoint lessThan (a b : string) : bool :=
  match a, b with
  | _, EmptyString => false
  | EmptyString, String _ _ => true
  | String x a', String y b' =>
      if (N_of_ascii x <? N_of_ascii y)%N then true
      else if (N_of_ascii y <? N_of_ascii x)%N then false
      else lessThan a' b'
  end.

(** [s.slice(1)] *)
Definition slice1 (s : string) : string :=
  match s with
  | String _ rest => rest
  | EmptyString => EmptyString
  end.

(** Paths are written from the project directory. *)
Record Host := mkHost {
  version : string;                            (* [process.version] *)
  existsSync : string -> bool;
  copyFileSync : string -> string -> result unit;
  readFileSync : string -> result string
}.

Inductive Action : Type :=
| Copy (from to : string)
| Read (path : string)
| WarnMissingKeys (keys : list string).   (* the warning that names them *)

Definition checkNodeVersion (host : Host) : proc Action unit :=
  let requiredVersion := "18.0.0" in
  let currentVersion := slice1 (version host) in
  if lessThan currentVersion requiredVersion then exit 1 else ret tt.

(** ** The match of [envContent] against the multi-line pattern: start of
    a line, the key, an equals sign, a group that takes the rest of the
    line, end of the line *)

(** The line terminators among the code units below 256: LF and CR. *)
Definition is_line_terminator (c : ascii) : bool :=
  let n := N_of_ascii c in ((n =? 10) || (n =? 13))%N.

(** The group: as many characters as there are before the next line
    terminator; the end-of-line anchor then holds where it stops. *)
Fixpoint to_line_end (s : string) : string :=
  match s with
  | EmptyString => EmptyString
  | String c rest =>
      if is_line_terminator c then EmptyString else String c (to_line_end rest)
  end.

(** What is left of [s] after the literal [p], if [s] begins with it. *)
Fixpoint after_literal (p s : string) : option string :=
  match p, s with
  | EmptyString, _ => Some s
  | String _ _, EmptyString => None
  | String a p', String b s' =>
      if Ascii.eqb a b then after_literal p' s' else None
  end.

(** The pattern tried at one place, which [^] allows when the place is the
    beginning of the text or follows a line terminator. *)
Definition match_here (key s : string) : option string :=
  option_map to_line_end (after_literal (key ++ "=") s).

(** The first place where the pattern matches, from left to right; the
    value is the group, [match[1]]. *)
Fixpoint search (key : string) (line_start : bool) (s : string) : option string :=
  match (if line_start then match_here key s else None) with
  | Some group => Some group
  | None =>
      match s with
      | EmptyString => None
      | String c rest => search key (is_line_terminator c) rest
      end
  end.

Definition assigned (key envContent : string) : option string :=
  search key true envContent.

Definition requiredKeys : list string := ["OPENROUTER_API_KEY"].

Definition missingKeys (envContent : string) : list string :=
  filter (fun key =>
            match assigned key envContent with
            | None => true
            | Some group => (group =? "your_grok_api_key_here") || (group =? "")
            end)
         requiredKeys.

Definition checkEnvironmentFile (host : Host) : proc Action unit :=
  ((if negb (existsSync host ".env.local") then
      ([Copy ".env" ".env.local"],
       match copyFileSync host ".env" ".env.local" with
       | Ok _ => Done tt
       | Throw _ => Exit 1
       end)
    else ret tt) ;;
   ([Read ".env.local"], Done tt) ;;
   match readFileSync host ".env.local" with
   | Ok envContent =>
       match missingKeys envContent with
       | [] => ret tt
       | keys => ([WarnMissingKeys keys], Done tt)
       end
   | Throw _ => ret tt
   end)%proc.

(** These two only print. *)
Definition checkPortConfiguration (host : Host) : proc Action unit := ret tt.
Definition checkDependencies (host : Host) : proc Action unit := ret tt.

Definition requiredFiles : list string :=
  ["external-notes.md"; "project-plans.md"; "development-notes.md";
   "debug-log.md"; "handover-notes.md"; "prompt-notes.md"].

Definition checkExternalFolder (host : Host) : proc Action unit :=
  if negb (existsSync host "external-folder") then exit 1
  else
    let missingFiles :=
      filter (fun file => negb (existsSync host ("external-folder/" ++ file)))
             requiredFiles in
    match missingFiles with
    | [] => ret tt
    | _ :: _ => exit 1
    end.

(** The block under [if (require.main === module)]. *)
Definition checks (host : Host) : proc Action unit :=
  (checkNodeVersion host ;;
   checkEnvironmentFile host ;;
   checkPortConfiguration host ;;
   checkDependencies host ;;
   checkExternalFolder host)%proc.

(** The file run as a script: the block above, then
    [module.exports = { ..., checkPortAvailability, ... }], which names a
    function the file does not declare. *)
Definition script (host : Host) : proc Action unit :=
  (checks host ;;
   throw {| name := "ReferenceError";
            message := "checkPortAvailability is not defined";
            status := None |})%proc.

(** A text made of whole lines, none of which assigns [key]. *)
Inductive quiet (key : string) : string -> Prop :=
| quiet_end : quiet key ""
| quiet_line (line : string) (c : ascii) (rest : string) :
    to_line_end line = line ->
    after_literal (key ++ "=") line = None ->
    is_line_terminator c = true ->
    quiet key rest ->
    quiet key (line ++ String c rest).

(** The text stops here, or a line terminator comes next. *)
Definition at_line_end (s : string) : Prop := to_line_end s = "".

End PreDevChecks.

(* ===================================================================== *)
(** * src/scripts/generate-run-report.js: [getLocalIP] *)
(* ===================================================================== *)

Module RunReport.
Import JS Process.

(** One address of a network interface, as [os.networkInterfaces()] gives
    it: the three properties the script reads. *)
Record NetworkAddress := mkAddress {
  family : value;
  internal : bool;
  address : string
}.

(** [interface.family === 'IPv4' && !interface.internal] *)
Definition wanted (i : NetworkAddress) : bool :=
  is_string (family i) "IPv4" && negb (internal i).

(** The inner loop: the first address of one interface that is wanted. *)
Fixpoint first_wanted (addresses : list NetworkAddress) : option string :=
  match addresses with
  | [] => None
  | i :: rest => if wanted i then Some (address i) else first_wanted rest
  end.

(** The outer loop, over the interface names in the order of
    [Object.keys]. *)
Fixpoint first_of_all (interfaces : list (string * list NetworkAddress))
  : option string :=
  match interfaces with
  | [] => None
  | (_, addresses) :: rest =>
      match first_wanted addresses with
      | Some found => Some found
      | None => first_of_all rest
      end
  end.

(** [getLocalIP()]; the argument is what [os.networkInterfaces()] gives,
    or the error it throws. *)
Definition getLocalIP
    (networkInterfaces : result (list (string * list NetworkAddress))) : string :=
  match networkInterfaces with
  | Throw _ => "localhost"
  | Ok interfaces =>
      match first_of_all interfaces with
      | Some found => found
      | None => "localhost"
      end
  end.

End RunReport.

(* ===================================================================== *)
(** * More scenarios *)
(* ===================================================================== *)

Module ScenarioMore.
Import JS ChatInterface Deployment Scenario.

(** "Hello" typed and submitted, the answer not yet there. *)
Definition waiting : Page := step (step mount (Change "Hello")) Submit.

(** A Supabase client whose every chain stores and gives back one row. *)
Definition storing : Database.Client :=
  fun _ => Ok (Obj [("data", Obj [("id", Str "42")]); ("error", Null)]).

(** A Supabase client whose procedures say the tables are there already. *)
Definition provisioned : Database.Client :=
  fun _ => Ok (Obj [("data", Null);
                    ("error", Obj [("message", Str "relation already exists")])]).

(** A project that cannot be reached. *)
Definition down : SetupDatabase.Client :=
  fun _ => Throw (TypeError "fetch failed").

(** A fresh project: the [users] table is not there yet, and the
    [exec_sql] procedure is not installed. *)
Definition fresh : SetupDatabase.Client :=
  fun q =>
    match q with
    | SetupDatabase.SelectCount _ =>
        Ok (Obj [("data", Null); ("error", Obj [("code", Str "PGRST116")])])
    | SetupDatabase.ExecSql _ =>
        Ok (Obj [("data", Null);
                 ("error", Obj [("code", Str "PGRST202");
                                ("message", Str "Could not find the function")])])
    end.

(** Node 9. *)
Definition node9 : PreDevChecks.Host :=
  {| PreDevChecks.version := "v9.11.2";
     PreDevChecks.existsSync := fun _ => true;
     PreDevChecks.copyFileSync := fun _ _ => Ok tt;
     PreDevChecks.readFileSync := fun _ => Ok "" |}.

Definition LF : string := String (ascii_of_nat 10) "".
Definition CRLF : string := String (ascii_of_nat 13) LF.

End ScenarioMore.

(* ===================================================================== *)
(** * Properties of the component *)
(* ===================================================================== *)

Module Controller.
Import JS ChatInterface.

(** ** [trim] *)

Lemma trimStart_blank (s : string) :
  trimStart s = "" <-> forall c, In c (list_ascii_of_string s) -> is_white_space c = true.
Proof.
  induction s as [|c s IH]; simpl.
  - split; [intros _ c [] | reflexivity].
  - destruct (is_white_space c) eqn:W.
    + rewrite IH. split.
      * intros H x [<-|Hx]; auto.
      * intros H x Hx. apply H. now right.
    + split; [discriminate|].
      intros H. specialize (H c (or_introl eq_refl)). congruence.
Qed.

Lemma trimEnd_empty (s : string) : trimEnd s = "" -> trimStart s = "".
Proof.
  induction s as [|c s IH]; simpl; [reflexivity|].
  destruct (trimEnd s) eqn:E.
  - destruct (is_white_space c); [intros _; now apply IH | discriminate].
  - discriminate.
Qed.

Lemma trimStart_head (s : string) :
  match trimStart s with
  | String c _ => is_white_space c = false
  | EmptyString => True
  end.
Proof.
  induction s as [|c s IH]; simpl; [exact I|].
  destruct (is_white_space c) eqn:W; [exact IH | exact W].
Qed.

(** A text trims to the empty string exactly when it is made of white
    space only. *)
Lemma trim_blank (s : string) :
  trim s = "" <-> forall c, In c (list_ascii_of_string s) -> is_white_space c = true.
Proof.
  rewrite <- trimStart_blank. unfold trim. split.
  - intros H. apply trimEnd_empty in H.
    pose proof (trimStart_head s) as Hd.
    destruct (trimStart s) as [|c r] eqn:E; [reflexivity|].
    simpl in H. rewrite Hd in H. discriminate.
  - intros ->. reflexivity.
Qed.

Lemma refused_iff (s : State) :
  refused s = true <-> trim (input s) = "" \/ isLoading s = true.
Proof.
  unfold refused. simpl. rewrite orb_true_iff, negb_involutive, String.eqb_eq.
  reflexivity.
Qed.

Lemma accepted_iff (s : State) :
  refused s = false <-> trim (input s) <> "" /\ isLoading s = false.
Proof.
  unfold refused. simpl. rewrite orb_false_iff, negb_involutive, String.eqb_neq.
  reflexivity.
Qed.

(** ** What [sendMessage] does *)

Lemma sendMessage_refused (c s : State) :
  refused c = true ->
  run (sendMessage c) s = ([PreventDefault], Returned s).
Proof.
  intros H. unfold sendMessage. simpl. rewrite H. reflexivity.
Qed.

Lemma sendMessage_accepted (c s : State) :
  refused c = false ->
  exists k,
    run (sendMessage c) s =
      ([PreventDefault; SetMessages (Ok (userMessage c)); SetInput "";
        SetIsLoading true; Fetch (request c)], Waiting (sent c s) k)
    /\ closes k.
Proof.
  intros H. unfold sendMessage. simpl. rewrite H. simpl.
  eexists. split; [reflexivity|].
  intros out s'. unfold closing_turn.
  destruct out as [response|e]; simpl; [|reflexivity].
  destruct (json response) as [data|e]; simpl; [|reflexivity].
  destruct (ok response); simpl.
  - destruct (get data "message") as [text|e]; simpl; [|reflexivity].
    destruct (renderable text); reflexivity.
  - destruct (get data "error") as [error|e]; simpl; [|reflexivity].
    destruct (to_string _); reflexivity.
Qed.

(** A turn is shown when building it does not throw and React can show its
    content. *)
Lemma shown_ok (appended : result Turn) (t : Turn) :
  shown appended = Ok t <-> appended = Ok t /\ renderable (content t) = true.
Proof.
  unfold shown. destruct appended as [t'|e]; cbn.
  - destruct (renderable (content t')) eqn:R; split.
    + intros [= <-]. split; [reflexivity | exact R].
    + intros ([= <-] & _). reflexivity.
    + discriminate.
    + intros ([= <-] & R'). congruence.
  - split; [discriminate | intros (H & _); discriminate H].
Qed.

Lemma shown_text (r : Role) (text : string) :
  shown (Ok {| role := r; content := Str text |})
  = Ok {| role := r; content := Str text |}.
Proof. reflexivity. Qed.

Lemma shown_error_turn (detail : string) :
  shown (Ok (error_turn detail)) = Ok (error_turn detail).
Proof. reflexivity. Qed.

(** ** The event loop *)

Lemma rerender_same (p : Page) (s : State) :
  darkMode s = darkMode (ui p) -> rerender p s = style p.
Proof.
  intros H. unfold rerender. rewrite H, Bool.eqb_reflx. reflexivity.
Qed.

Lemma step_unmounted (p : Page) (ev : event) (e : exn) :
  unmounted p = Some e -> step p ev = p.
Proof. intros H. unfold step. rewrite H. reflexivity. Qed.

Lemma step_submit_refused (p : Page) :
  unmounted p = None -> refused (ui p) = true ->
  step p Submit =
    mkPage (ui p) (style p) (inflight p) (trace p ++ [PreventDefault])
           (rejections p) None.
Proof.
  intros M R. unfold step. rewrite M.
  rewrite (sendMessage_refused _ _ R). simpl.
  rewrite rerender_same by reflexivity. reflexivity.
Qed.

(** An exchange from an idle page, seen as a whole. *)
Lemma exchange_idle (p : Page) (text : string) (out : result Response) (t : Turn) :
  idle p -> trim text <> "" -> shown (closing_turn out) = Ok t ->
  let c := mkState (messages (ui p)) text false
                   (autoScroll (ui p)) (darkMode (ui p)) (showSettings (ui p)) in
  exchange p (text, out) =
    mkPage (mkState (messages (ui p) ++ [userMessage c; t]) "" false
                    (autoScroll (ui p)) (darkMode (ui p)) (showSettings (ui p)))
           (style p) []
           (trace p ++ [PreventDefault; SetMessages (Ok (userMessage c));
                        SetInput ""; SetIsLoading true; Fetch (request c);
                        SetMessages (Ok t); SetIsLoading false])
           (rejections p) None.
Proof.
  intros (M & F & L) T C c.
  unfold exchange, steps. cbn [fold_left fst snd].
  assert (S1 : step p (Change text) =
               mkPage c (style p) [] (trace p) (rejections p) None).
  { unfold step. rewrite M. cbv zeta. rewrite L. unfold with_ui.
    rewrite rerender_same by reflexivity. rewrite F, M.
    reflexivity. }
  rewrite S1.
  assert (A : refused c = false) by (apply accepted_iff; split; [exact T | reflexivity]).
  destruct (sendMessage_accepted c c A) as (k & Hrun & Hk).
  unfold step at 2. cbn [unmounted ui inflight].
  rewrite Hrun. cbn [commit]. rewrite rerender_same by reflexivity.
  unfold step. cbn [unmounted ui inflight app].
  rewrite Hk, C. apply shown_ok in C. destruct C as (-> & _).
  cbn [commit]. rewrite rerender_same by reflexivity.
  cbn [trace rejections style ui].
  unfold closed, sent. cbn [messages input autoScroll darkMode showSettings].
  rewrite <- !app_assoc. reflexivity.
Qed.

(** An exchange from an idle page whose answer cannot be put on the screen:
    the user's turn stays the last one, [isLoading] stays true, and the
    component is gone. *)
Lemma exchange_idle_unshown (p : Page) (text : string) (out : result Response)
    (e : exn) :
  idle p -> trim text <> "" -> shown (closing_turn out) = Throw e ->
  let c := mkState (messages (ui p)) text false
                   (autoScroll (ui p)) (darkMode (ui p)) (showSettings (ui p)) in
  exchange p (text, out) =
    mkPage (mkState (messages (ui p) ++ [userMessage c]) "" true
                    (autoScroll (ui p)) (darkMode (ui p)) (showSettings (ui p)))
           (style p) []
           (trace p ++ [PreventDefault; SetMessages (Ok (userMessage c));
                        SetInput ""; SetIsLoading true; Fetch (request c);
                        SetMessages (closing_turn out); SetIsLoading false])
           (rejections p) (Some e).
Proof.
  intros (M & F & L) T C c.
  unfold exchange, steps. cbn [fold_left fst snd].
  assert (S1 : step p (Change text) =
               mkPage c (style p) [] (trace p) (rejections p) None).
  { unfold step. rewrite M. cbv zeta. rewrite L. unfold with_ui.
    rewrite rerender_same by reflexivity. rewrite F, M.
    reflexivity. }
  rewrite S1.
  assert (A : refused c = false) by (apply accepted_iff; split; [exact T | reflexivity]).
  destruct (sendMessage_accepted c c A) as (k & Hrun & Hk).
  unfold step at 2. cbn [unmounted ui inflight].
  rewrite Hrun. cbn [commit]. rewrite rerender_same by reflexivity.
  unfold step. cbn [unmounted ui inflight app].
  rewrite Hk, C. cbn [commit].
  cbn [trace rejections style ui].
  unfold sent. cbn [messages input autoScroll darkMode showSettings].
  rewrite <- !app_assoc. reflexivity.
Qed.

Lemma exchange_idle_again (p : Page) (text : string) (out : result Response) :
  idle p -> trim text <> "" -> delivers out ->
  idle (exchange p (text, out))
  /\ length (messages (ui (exchange p (text, out)))) = 2 + length (messages (ui p)).
Proof.
  intros I T (t & C).
  rewrite (exchange_idle p text out t I T C). cbn.
  split; [repeat split|].
  rewrite length_app. cbn. lia.
Qed.

Lemma succeeds_closing_turn (text : value) (out : result Response) :
  succeeds_with text out ->
  closing_turn out = Ok {| role := assistant; content := text |}.
Proof.
  intros (response & data & -> & O & J & G).
  unfold closing_turn. rewrite J, O, G. reflexivity.
Qed.

Lemma successful_delivers (out : result Response) : successful out -> delivers out.
Proof.
  intros (text & S). eexists.
  rewrite (succeeds_closing_turn _ _ S). apply shown_text.
Qed.

Lemma exchanges_length (xs : list (string * result Response)) (p : Page) :
  idle p ->
  Forall (fun x => trim (fst x) <> "" /\ delivers (snd x)) xs ->
  idle (exchanges p xs)
  /\ length (messages (ui (exchanges p xs))) = 2 * length xs + length (messages (ui p)).
Proof.
  revert p. induction xs as [|[text out] xs IH]; intros p I H.
  - split; [exact I | reflexivity].
  - inversion H as [|? ? [T D] H']; subst. cbn [fst snd] in T, D.
    destruct (exchange_idle_again p text out I T D) as (I' & L').
    destruct (IH _ I' H') as (I'' & L'').
    unfold exchanges in *. cbn [fold_left]. split; [exact I''|].
    rewrite L'', L'. cbn [length]. lia.
Qed.

Lemma mount_idle : idle mount.
Proof. repeat split. Qed.

(** C2.  From the first render, whose log is the one greeting turn, [k]
    exchanges in a row, each with a text that is not blank, each submitted
    once the one before has settled and each answered with a success status
    and a reply text (a string under [message]), leave a log of
    [1 + 2 * k] turns. *)
Theorem log_length_after_exchanges (xs : list (string * result Response)) :
  Forall (fun x => trim (fst x) <> "" /\ successful (snd x)) xs ->
  messages (ui mount) = [greeting]
  /\ role greeting = assistant
  /\ length (messages (ui (exchanges mount xs))) = 1 + 2 * length xs.
Proof.
  intros H. split; [reflexivity|]. split; [reflexivity|].
  destruct (exchanges_length xs mount mount_idle) as (_ & L).
  - eapply Forall_impl; [|exact H]. intros x (T & S).
    split; [exact T | now apply successful_delivers].
  - rewrite L. cbn. lia.
Qed.

(** C3.  A submission whose text trims to the empty string, or that comes
    while an exchange is pending, changes nothing: the state (log, input,
    pending flag) is the one before, no request is added to those in
    flight, nothing is thrown, and the only thing the handler did is
    [e.preventDefault()]. *)
Theorem submit_refused_is_noop (p : Page) :
  trim (input (ui p)) = "" \/ isLoading (ui p) = true ->
  let p' := step p Submit in
  ui p' = ui p /\ style p' = style p /\ inflight p' = inflight p
  /\ rejections p' = rejections p /\ unmounted p' = unmounted p
  /\ exists did, trace p' = (trace p ++ did)%list
                 /\ Forall (fun ef => ef = PreventDefault) did.
Proof.
  intros H p'. subst p'. apply refused_iff in H.
  destruct (unmounted p) as [e|] eqn:M.
  - rewrite (step_unmounted p Submit e M). rewrite M.
    repeat split. exists []. rewrite app_nil_r. split; [reflexivity | constructor].
  - rewrite (step_submit_refused p M H). cbn.
    repeat split. exists [PreventDefault]. split; [reflexivity|].
    repeat constructor.
Qed.

(** ** One request at a time *)

Lemma single_flight_with_ui (p : Page) (s : State) :
  isLoading s = isLoading (ui p) -> single_flight p -> single_flight (with_ui p s).
Proof.
  unfold single_flight, with_ui. cbn. intros E H M. rewrite E. exact (H M).
Qed.

Lemma single_flight_step (p : Page) (ev : event) :
  single_flight p -> single_flight (step p ev).
Proof.
  intros H. destruct (unmounted p) as [e|] eqn:M.
  - rewrite (step_unmounted p ev e M). exact H.
  - specialize (H M). unfold step. rewrite M. cbv zeta.
    destruct ev; try (apply single_flight_with_ui; [reflexivity | intros _; exact H]).
    + destruct (isLoading (ui p)) eqn:L.
      * intros _. rewrite L. exact H.
      * apply single_flight_with_ui; [cbn; now rewrite L |].
        intros _. rewrite L. exact H.
    + destruct (refused (ui p)) eqn:R.
      * rewrite (sendMessage_refused _ _ R). intros _. cbn. exact H.
      * destruct (sendMessage_accepted (ui p) (ui p) R) as (k & -> & K).
        apply accepted_iff in R. destruct R as (_ & L).
        destruct H as [(F & _) | (k' & _ & L' & _)]; [|congruence].
        intros _. right. exists k. cbn. rewrite F. repeat split. exact K.
    + destruct H as [(F & L) | (k & F & L & K)]; rewrite F.
      * intros _. left. split; assumption.
      * rewrite K. destruct (shown (closing_turn out)) as [t|e]; cbn.
        -- intros _. left. split; reflexivity.
        -- discriminate.
Qed.

(** On every page the event loop reaches, at most one request is in
    flight, and [isLoading] says whether one is. *)
Lemma reachable_single_flight (p : Page) : reachable p -> single_flight p.
Proof.
  induction 1 as [|p ev _ IH]; [|now apply single_flight_step].
  intros _. left. split; reflexivity.
Qed.

(** ** The theme *)

Lemma themed_with_ui (p : Page) (s : State) : themed p -> themed (with_ui p s).
Proof.
  unfold themed, with_ui, rerender. cbn. intros H.
  destruct (Bool.eqb (darkMode (ui p)) (darkMode s)) eqn:E; [|reflexivity].
  apply Bool.eqb_prop in E. rewrite <- E. exact H.
Qed.

Lemma themed_commit (p : Page) (waiting : list (result Response -> task unit))
    (r : list effect * progress) :
  themed p -> themed (commit p waiting r).
Proof.
  intros H. destruct r as [tr [s|s e|s k|e]]; cbn [commit];
    try exact (themed_with_ui p s H).
  exact H.
Qed.

Lemma themed_step (p : Page) (ev : event) : themed p -> themed (step p ev).
Proof.
  intros H. unfold step. destruct (unmounted p); [exact H|]. cbv zeta.
  destruct ev; try (apply themed_with_ui; exact H).
  - destruct (isLoading (ui p)); [exact H | apply themed_with_ui; exact H].
  - apply themed_commit; exact H.
  - destruct (inflight p); [exact H | apply themed_commit; exact H].
Qed.

(** On every page the event loop reaches, [document.body] shows the
    colours of the theme. *)
Lemma reachable_themed (p : Page) : reachable p -> themed p.
Proof.
  induction 1 as [|p ev _ IH]; [reflexivity | now apply themed_step].
Qed.

Lemma toggleTheme_style (p : Page) :
  unmounted p = None ->
  style (toggleTheme p) = applyDarkMode (negb (darkMode (ui p))).
Proof.
  intros M. unfold toggleTheme, step. rewrite M. cbn.
  unfold rerender. cbn. destruct (darkMode (ui p)); reflexivity.
Qed.

Lemma toggleTheme_changes_colours (p : Page) :
  themed p -> unmounted p = None ->
  backgroundColor (style (toggleTheme p)) <> backgroundColor (style p)
  /\ color (style (toggleTheme p)) <> color (style p).
Proof.
  intros T M. rewrite (toggleTheme_style p M), T.
  destruct (darkMode (ui p)); cbn; split; discriminate.
Qed.

(** C9.  On any page the event loop reaches, ticking the Dark Mode box
    twice gives back the page as it was: [document.body] has the background
    and the text colour it had before the first tick. *)
Theorem toggleTheme_twice (p : Page) :
  reachable p ->
  backgroundColor (style (toggleTheme (toggleTheme p))) = backgroundColor (style p)
  /\ color (style (toggleTheme (toggleTheme p))) = color (style p)
  /\ toggleTheme (toggleTheme p) = p.
Proof.
  intros R. pose proof (reachable_themed p R) as T.
  assert (E : toggleTheme (toggleTheme p) = p).
  { destruct (unmounted p) as [e|] eqn:M.
    - unfold toggleTheme. now rewrite !(step_unmounted _ _ e M).
    - destruct p as [[ms inp ld sc dk sh] st fl tr rj um].
      cbn in M, T. subst um. unfold themed in T. cbn in T. subst st.
      destruct dk; reflexivity. }
  rewrite E. repeat split.
Qed.

End Controller.

(* ===================================================================== *)
(** * Properties of the route *)
(* ===================================================================== *)

Module Route.
Import JS ChatApi.

(** Case analysis on an [error.status]: absent, or a number, taken apart
    far enough to tell 401, 402 and 429 from every other. *)
Ltac by_status st tac :=
  let z := fresh "z" in
  let q := fresh "q" in
  destruct st as [z|]; [|tac];
  destruct z as [|q|q]; try tac;
  do 9 (destruct q as [q|q|]; try tac).

(** Any method but POST: 405, and the gateway is not called. *)
Lemma handler_method_not_allowed (development : bool) (openrouter : Gateway)
    (req : Req) :
  method req <> "POST" ->
  handler development openrouter req =
    {| answer := {| code := 405; payload := error_body "Method not allowed" |};
       gateway_calls := []; console := [] |}.
Proof.
  intros H. unfold handler. apply String.eqb_neq in H. rewrite H. reflexivity.
Qed.

(** A body that is not [null] and whose [messages] is missing or is not an
    array: 400, and the gateway is not called. *)
Lemma handler_messages_required (development : bool) (openrouter : Gateway)
    (req : Req) (messages : value) :
  method req = "POST" ->
  destructure "req.body" (body req) "messages" = Ok messages ->
  isArray messages = false ->
  handler development openrouter req =
    {| answer := {| code := 400; payload := error_body "Messages array is required" |};
       gateway_calls := []; console := [] |}.
Proof.
  intros M D A. unfold handler, attempt. rewrite M, D, A.
  rewrite orb_true_r. reflexivity.
Qed.

(** The same for an object: [messages] is looked up among its fields. *)
Lemma handler_object_without_array (development : bool) (openrouter : Gateway)
    (fields : list (string * value)) :
  isArray (lookup "messages" fields) = false ->
  handler development openrouter {| method := "POST"; body := Obj fields |} =
    {| answer := {| code := 400; payload := error_body "Messages array is required" |};
       gateway_calls := []; console := [] |}.
Proof.
  intros A. now apply (handler_messages_required _ _ _ (lookup "messages" fields)).
Qed.

(** A missing [messages] is a [messages] that is not an array. *)
Lemma missing_is_not_array (fields : list (string * value)) :
  lookup "messages" fields = Undefined ->
  destructure "req.body" (Obj fields) "messages" = Ok Undefined
  /\ isArray Undefined = false.
Proof. intros H. cbn. rewrite H. split; reflexivity. Qed.

(** With an array of messages the gateway is called once, with that array,
    and the answer follows from what the call gives. *)
Lemma handler_forwards (development : bool) (openrouter : Gateway) (req : Req)
    (items : list value) :
  method req = "POST" ->
  destructure "req.body" (body req) "messages" = Ok (Arr items) ->
  gateway_calls (handler development openrouter req) = [create_args (Arr items)]
  /\ answer (handler development openrouter req) =
       match (completion <- openrouter (create_args (Arr items)) ;;
              reply_of completion)%js with
       | Throw error => classify development error
       | Ok reply =>
           if truthy reply
           then {| code := 200; payload := Obj [("message", reply)] |}
           else {| code := 500; payload := error_body "No response from API" |}
       end.
Proof.
  intros M D. unfold handler, attempt. rewrite M, D.
  change (negb ("POST" =? "POST")) with false.
  cbn [truthy isArray negb orb].
  destruct (openrouter (create_args (Arr items))) as [completion|e]; cbn [bind].
  - destruct (reply_of completion) as [reply|e]; cbn [bind].
    + destruct (truthy reply); cbn; split; reflexivity.
    + split; reflexivity.
  - split; reflexivity.
Qed.

(** The classification, read off the code, against the table of the
    specification. *)
Lemma classify_table (development : bool) (error : exn) :
  code (classify development error) = fst (Deployment.failure_kind (status error))
  /\ get (payload (classify development error)) "error"
     = Ok (Str (snd (Deployment.failure_kind (status error)))).
Proof.
  unfold classify, Deployment.failure_kind.
  by_status (status error) ltac:(split; reflexivity).
Qed.

Lemma classify_is_error (development : bool) (error : exn) :
  exists text rest,
    payload (classify development error) = Obj (("error", Str text) :: rest)
    /\ text = snd (Deployment.failure_kind (status error))
    /\ text <> ""
    /\ (200 <=? code (classify development error))%Z
       && (code (classify development error) <=? 299)%Z = false.
Proof.
  unfold classify, Deployment.failure_kind.
  by_status (status error) ltac:(do 2 eexists; repeat split; discriminate).
Qed.

(** The errors of property reads carry no status. *)
Lemma get_throws (v : value) (key : string) (e : exn) :
  get v key = Throw e -> status e = None.
Proof. destruct v; cbn; intros H; inversion H; reflexivity. Qed.

Lemma get_opt_throws (v : value) (key : string) (e : exn) :
  get_opt v key = Throw e -> status e = None.
Proof. destruct v; cbn; intros H; inversion H. Qed.

Lemma get0_throws (v : value) (e : exn) : get0 v = Throw e -> status e = None.
Proof.
  destruct v as [| | | |x| |]; cbn; intros H; try (inversion H; reflexivity).
  destruct x; inversion H.
Qed.

Lemma reply_of_throws (completion : value) (e : exn) :
  reply_of completion = Throw e -> status e = None.
Proof.
  unfold reply_of.
  destruct (get completion "choices") as [choices|x] eqn:C; cbn [bind];
    [|intros H; injection H as <-; exact (get_throws _ _ _ C)].
  destruct (get0 choices) as [first|x] eqn:F; cbn [bind];
    [|intros H; injection H as <-; exact (get0_throws _ _ F)].
  destruct (get_opt first "message") as [m|x] eqn:M; cbn [bind];
    [|intros H; injection H as <-; exact (get_opt_throws _ _ _ M)].
  apply get_opt_throws.
Qed.

(** Whatever is thrown inside the [try] is answered by [classify]. *)
Lemma handler_catch (development : bool) (openrouter : Gateway) (req : Req)
    (error : exn) :
  method req = "POST" ->
  fst (attempt openrouter req) = Throw error ->
  answer (handler development openrouter req) = classify development error.
Proof.
  intros M T. unfold handler. rewrite M.
  change (negb ("POST" =? "POST")) with false. cbv iota.
  destruct (attempt openrouter req) as [[res|x] calls]; cbn in T.
  - discriminate.
  - injection T as ->. reflexivity.
Qed.

(** C6, where the code departs from it.  A POST whose body is the JSON
    literal [null] has no [messages]; the destructuring throws inside the
    [try], before the check that answers 400, and the answer is the generic
    500 of the [catch].  The gateway is not called. *)
Theorem handler_null_body (development : bool) (openrouter : Gateway) :
  let served := handler development openrouter {| method := "POST"; body := Null |} in
  code (answer served) = 500%Z
  /\ get (payload (answer served)) "error" = Ok (Str "Internal server error")
  /\ gateway_calls served = []
  /\ console served =
       [TypeError "Cannot destructure property 'messages' of 'req.body' as it is null."].
Proof. repeat split. Qed.

End Route.

(* ===================================================================== *)
(** * Properties of the component and the route together *)
(* ===================================================================== *)

Module EndToEnd.
Import JS ChatInterface Deployment.

Lemma wire_request (s : State) :
  over_the_wire (body (request s)) =
    Obj [("messages", Arr (map wire_turn (messages s ++ [userMessage s])))].
Proof.
  unfold request. cbn. rewrite map_map. reflexivity.
Qed.

(** The route, reached by the request of [s], calls the gateway once with
    the whole log and the new user turn. *)
Lemma serve_request (development : bool) (openrouter : ChatApi.Gateway) (s : State) :
  ChatApi.gateway_calls (serve development openrouter (request s)) = [gateway_args s]
  /\ ChatApi.answer (serve development openrouter (request s)) =
       match (completion <- openrouter (gateway_args s) ;;
              ChatApi.reply_of completion)%js with
       | Throw error => ChatApi.classify development error
       | Ok reply =>
           if truthy reply
           then {| ChatApi.code := 200; ChatApi.payload := Obj [("message", reply)] |}
           else {| ChatApi.code := 500;
                   ChatApi.payload := ChatApi.error_body "No response from API" |}
       end.
Proof.
  unfold serve. apply Route.handler_forwards; cbn [ChatApi.method ChatApi.body].
  - reflexivity.
  - rewrite wire_request. reflexivity.
Qed.

Lemma converse_accepted (w : World) (s : State) :
  refused s = false ->
  let out := reply w (request s) in
  converse w s =
    ([PreventDefault; SetMessages (Ok (userMessage s)); SetInput "";
      SetIsLoading true; Fetch (request s);
      SetMessages (closing_turn out); SetIsLoading false],
     match shown (closing_turn out) with
     | Ok t => Returned (closed t (sent s s))
     | Throw e => RenderError e
     end).
Proof.
  intros A out. unfold converse.
  destruct (Controller.sendMessage_accepted s s A) as (k & Hrun & Hk).
  rewrite Hrun. cbn [last]. rewrite Hk. reflexivity.
Qed.

(** ** Failures *)

(** The component, given an answer of the route that carries an error
    text, ends the exchange with that text. *)
Lemma closing_turn_error_answer (st : Z) (text : string)
    (rest : list (string * value)) :
  ((200 <=? st) && (st <=? 299))%Z = false -> text <> "" ->
  closing_turn (Ok {| status := st;
                      json := Ok (over_the_wire (Obj (("error", Str text) :: rest))) |})
  = Ok (error_turn text).
Proof.
  intros S T. unfold closing_turn, ok. cbn [json status]. rewrite S.
  cbn. unfold or_else. cbn. apply String.eqb_neq in T. rewrite T. reflexivity.
Qed.

Lemma closing_turn_classified (development : bool) (e : exn) :
  closing_turn
    (Ok {| status := ChatApi.code (ChatApi.classify development e);
           json := Ok (over_the_wire (ChatApi.payload (ChatApi.classify development e))) |})
  = Ok (error_turn (snd (failure_kind (JS.status e)))).
Proof.
  destruct (Route.classify_is_error development e) as (text & rest & P & -> & T & S).
  rewrite P. now apply closing_turn_error_answer.
Qed.

Lemma reply_up (w : World) (rq : Request) :
  net w = Up ->
  reply w rq =
    Ok {| status := ChatApi.code (ChatApi.answer (serve (development w) (openrouter w) rq));
          json := Ok (over_the_wire
                   (ChatApi.payload (ChatApi.answer (serve (development w) (openrouter w) rq)))) |}.
Proof. intros U. unfold reply, respond. rewrite U. reflexivity. Qed.

(** However an exchange fails, the component gets to close it with an
    error turn that carries the diagnostic. *)
Lemma fails_closing_turn (w : World) (s : State) :
  Fails w s ->
  closing_turn (reply w (request s)) = Ok (error_turn (diagnostic w s)).
Proof.
  intros [e D | st e P | st payload error detail P S E T | e U G | completion U G N];
    unfold diagnostic.
  - unfold reply, respond. rewrite D. reflexivity.
  - unfold reply, respond. rewrite P. reflexivity.
  - unfold reply, respond. rewrite P. unfold closing_turn, ok. cbn [json status].
    rewrite S, E. cbn [bind]. rewrite T. reflexivity.
  - rewrite (reply_up w _ U), U, G.
    destruct (serve_request (development w) (openrouter w) s) as (_ & ->).
    rewrite G. cbn [bind]. apply closing_turn_classified.
  - rewrite (reply_up w _ U), U, G.
    destruct (serve_request (development w) (openrouter w) s) as (_ & ->).
    rewrite G. cbn [bind]. unfold no_reply_text in N.
    destruct (ChatApi.reply_of completion) as [v|e].
    + assert (F : truthy v = false) by (destruct N as [->|[->| ->]]; reflexivity).
      rewrite F. now apply closing_turn_error_answer.
    + apply closing_turn_classified.
Qed.

(** Where a failure does become a visible turn.  However the exchange fails
    among the ways of [Fails] (no connection to the route, an answer that
    is not JSON, an answer with a status that is not a success whose
    [error] can be read and printed, an error of the gateway call, a
    completion without reply text), [sendMessage] returns; nothing is
    thrown and the component stays on screen.  The log is the one before
    with the user turn and one more turn, whose role is assistant and whose
    content starts with ["Error: "]; [isLoading] is false. *)
Lemma failure_becomes_error_turn (w : World) (s : State) :
  refused s = false -> Fails w s ->
  exists did s' t detail,
    converse w s = (did, Returned s')
    /\ messages s' = (messages s ++ [userMessage s; t])%list
    /\ last (messages s') greeting = t
    /\ role t = assistant
    /\ content t = Str ("Error: " ++ detail)
    /\ isLoading s' = false.
Proof.
  intros A F. pose proof (converse_accepted w s A) as C. cbv zeta in C.
  rewrite (fails_closing_turn w s F), Controller.shown_error_turn in C.
  eexists _, _, (error_turn (diagnostic w s)), (diagnostic w s).
  split; [exact C|]. cbn [closed sent messages isLoading].
  rewrite <- app_assoc. cbn [app].
  repeat split.
  change [userMessage s; error_turn (diagnostic w s)]
    with ([userMessage s] ++ [error_turn (diagnostic w s)])%list.
  rewrite app_assoc. apply last_last.
Qed.

Lemma steps_unmounted (p : Page) (e : exn) (evs : list event) :
  unmounted p = Some e -> steps p evs = p.
Proof.
  intros M. unfold steps. induction evs as [|ev evs IH]; cbn [fold_left].
  - reflexivity.
  - rewrite (Controller.step_unmounted p ev e M). exact IH.
Qed.

(** An answer whose JSON body is [null]: whatever the status, the updater
    reads a property of [null] when React runs it, outside the [try] of
    [sendMessage].  From an idle page the exchange ends with the user's
    turn as the last one, [isLoading] true, and the component off the
    screen. *)
Lemma null_answer_unmounts (p : Page) (text : string) (st : Z) :
  idle p -> trim text <> "" ->
  let p' := exchange p (text, Ok {| status := st; json := Ok Null |}) in
  (exists key, unmounted p' = Some (cannot_read Null key))
  /\ messages (ui p')
     = (messages (ui p) ++ [{| role := user; content := Str text |}])%list
  /\ isLoading (ui p') = true.
Proof.
  intros I T p'. subst p'.
  assert (C : exists key,
            shown (closing_turn (Ok {| status := st; json := Ok Null |}))
            = Throw (cannot_read Null key)).
  { unfold closing_turn. cbn [json]. destruct (ok _); eexists; reflexivity. }
  destruct C as (key & C).
  rewrite (Controller.exchange_idle_unshown p text _ _ I T C).
  cbn [unmounted ui messages isLoading]. split; [exists key; reflexivity|].
  split; reflexivity.
Qed.

(** C4, where the code departs from it.  The user submits ["Hello"] on the
    first render and the request is answered with the status 500 and the
    JSON body [null]: a failure ([response.ok] is false).  No error turn is
    appended: the updater [prev => [...prev, ... data.error ...]] throws
    when React runs it, which the [try] of [sendMessage] does not see.  The
    log ends with the user's turn, [isLoading] stays true, the component is
    off the screen, and nothing the user does brings it back. *)
Theorem null_answer_leaves_no_error_turn :
  let out := Ok {| status := 500; json := Ok Null |} in
  let p := exchange mount ("Hello", out) in
  failed out
  /\ unmounted p
     = Some (TypeError "Cannot read properties of null (reading 'error')")
  /\ messages (ui p) = [greeting; {| role := user; content := Str "Hello" |}]
  /\ isLoading (ui p) = true
  /\ inflight p = []
  /\ forall evs, steps p evs = p.
Proof.
  cbv zeta.
  assert (M : unmounted (exchange mount
                ("Hello", Ok {| status := 500; json := Ok Null |}))
              = Some (TypeError "Cannot read properties of null (reading 'error')"))
    by reflexivity.
  split; [reflexivity|]. split; [exact M|].
  split; [reflexivity|]. split; [reflexivity|]. split; [reflexivity|].
  intros evs. exact (steps_unmounted _ _ evs M).
Qed.

(** The two other answers the component cannot show.  An [error] with a
    property [toString] of its own cannot be put into the template
    literal; a [message] that is an object is no React child. *)
Lemma unprintable_error_unmounts :
  unmounted (exchange mount
    ("Hello", Ok {| status := 500;
                    json := Ok (Obj [("error", Obj [("toString", Num "1")])]) |}))
  = Some (TypeError "Cannot convert object to primitive value").
Proof. reflexivity. Qed.

Lemma object_reply_unmounts :
  unmounted (exchange mount
    ("Hello", Ok {| status := 200;
                    json := Ok (Obj [("message", Obj [("text", Str "hi")])]) |}))
  = Some not_a_child
  /\ unmounted (exchange mount
    ("Hello", Ok {| status := 200;
                    json := Ok (Obj [("message",
                             Arr [Obj [("type", Str "text"); ("text", Str "hi")]])]) |}))
  = Some not_a_child.
Proof. split; reflexivity. Qed.

(** ** Successes *)

Lemma closing_turn_reply (w : World) (s : State) (completion : value) (text : string) :
  net w = Up ->
  openrouter w (gateway_args s) = Ok completion ->
  ChatApi.reply_of completion = Ok (Str text) -> text <> "" ->
  succeeds_with (Str text) (reply w (request s)).
Proof.
  intros U G R T. rewrite (reply_up w _ U).
  destruct (serve_request (development w) (openrouter w) s) as (_ & ->).
  rewrite G. cbn [bind]. rewrite R. cbn [truthy].
  apply String.eqb_neq in T. rewrite T. cbn [negb].
  do 2 eexists. repeat split.
Qed.

(** C1.  A call of [sendMessage] with a text that is not blank and no
    exchange pending: the user turn is appended, the input is cleared,
    [isLoading] is set, and the request goes out, in this order; the
    messages of the request are the log at that point, user turn included,
    and the route hands the same list to the gateway.  When the gateway
    replies with the text [text], the exchange ends with the assistant turn
    of that text and [isLoading] false. *)
Theorem exchange_in_order (w : World) (s : State) (completion : value)
    (text : string) :
  trim (input s) <> "" -> isLoading s = false ->
  net w = Up ->
  openrouter w (gateway_args s) = Ok completion ->
  ChatApi.reply_of completion = Ok (Str text) -> text <> "" ->
  (exists k,
     run (sendMessage s) s =
       ([PreventDefault; SetMessages (Ok (userMessage s)); SetInput "";
         SetIsLoading true; Fetch (request s)], Waiting (sent s s) k))
  /\ messages (sent s s) = (messages s ++ [userMessage s])%list
  /\ body (request s) = Obj [("messages", Arr (map turn_value (messages (sent s s))))]
  /\ ChatApi.gateway_calls (serve (development w) (openrouter w) (request s)) =
       [ChatApi.create_args (Arr (map wire_turn (messages (sent s s))))]
  /\ converse w s =
       ([PreventDefault; SetMessages (Ok (userMessage s)); SetInput "";
         SetIsLoading true; Fetch (request s);
         SetMessages (Ok {| role := assistant; content := Str text |});
         SetIsLoading false],
        Returned (mkState (messages s ++ [userMessage s;
                             {| role := assistant; content := Str text |}])
                          "" false (autoScroll s) (darkMode s) (showSettings s))).
Proof.
  intros T L U G R N.
  assert (A : refused s = false) by (apply Controller.accepted_iff; now split).
  destruct (Controller.sendMessage_accepted s s A) as (k & Hrun & _).
  split; [exists k; exact Hrun|].
  split; [reflexivity|]. split; [reflexivity|].
  split; [apply serve_request|].
  rewrite (converse_accepted w s A).
  rewrite (Controller.succeeds_closing_turn _ _ (closing_turn_reply w s completion text U G R N)).
  rewrite Controller.shown_text.
  unfold closed, sent. cbn [messages input autoScroll darkMode showSettings].
  rewrite <- app_assoc. reflexivity.
Qed.

(** ** The classification, seen from the component *)

(** C5.  When the gateway call throws, the route answers by the status of
    the error: 401, 429 and 402 have an answer of their own, anything else
    is the generic 500; the component ends the exchange with the error
    text of the answer, so a 401 of the gateway ends in the turn
    [{assistant, "Error: Invalid API key"}]. *)
Theorem gateway_error_classified (w : World) (s : State) (e : exn) :
  refused s = false -> net w = Up ->
  openrouter w (gateway_args s) = Throw e ->
  let res := ChatApi.answer (serve (development w) (openrouter w) (request s)) in
  (JS.status e = Some 401%Z ->
     res = {| ChatApi.code := 401; ChatApi.payload := ChatApi.error_body "Invalid API key" |})
  /\ (JS.status e = Some 429%Z ->
     res = {| ChatApi.code := 429; ChatApi.payload := ChatApi.error_body "Rate limit exceeded" |})
  /\ (JS.status e = Some 402%Z ->
     res = {| ChatApi.code := 402; ChatApi.payload := ChatApi.error_body "Insufficient credits" |})
  /\ (JS.status e <> Some 401%Z -> JS.status e <> Some 429%Z -> JS.status e <> Some 402%Z ->
     ChatApi.code res = 500%Z
     /\ get (ChatApi.payload res) "error" = Ok (Str "Internal server error"))
  /\ exists did s',
       converse w s = (did, Returned s')
       /\ messages s' =
            (messages s ++ [userMessage s; error_turn (snd (failure_kind (JS.status e)))])%list
       /\ isLoading s' = false
       /\ (JS.status e = Some 401%Z ->
            last (messages s') greeting =
              {| role := assistant; content := Str "Error: Invalid API key" |}).
Proof.
  intros A U G res.
  assert (R : res = ChatApi.classify (development w) e).
  { subst res. destruct (serve_request (development w) (openrouter w) s) as (_ & ->).
    rewrite G. reflexivity. }
  rewrite R. clear R res.
  split; [|split; [|split; [|split]]].
  - intros H. unfold ChatApi.classify. rewrite H. reflexivity.
  - intros H. unfold ChatApi.classify. rewrite H. reflexivity.
  - intros H. unfold ChatApi.classify. rewrite H. reflexivity.
  - intros H1 H2 H3.
    destruct (Route.classify_table (development w) e) as (C & P).
    rewrite C, P. unfold failure_kind.
    Route.by_status (JS.status e) ltac:(first [split; reflexivity | congruence]).
  - pose proof (converse_accepted w s A) as C. cbv zeta in C.
    rewrite (fails_closing_turn w s (gateway_error w s e U G)),
      Controller.shown_error_turn in C.
    unfold diagnostic in C. rewrite U, G in C.
    do 2 eexists. split; [exact C|].
    cbn [closed sent messages isLoading]. rewrite <- app_assoc. cbn [app].
    repeat split.
    intros H. rewrite H.
    change [userMessage s; error_turn (snd (failure_kind (Some 401%Z)))]
      with ([userMessage s] ++ [error_turn "Invalid API key"])%list.
    rewrite app_assoc. apply last_last.
Qed.

(** C7.  The gateway call returns, but the completion has no usable reply
    text.  The route answers 500 with an error text, ["No response from
    API"] when the content is absent or empty, and the component ends the
    exchange with the error turn of that text. *)
Theorem missing_reply_is_failure (w : World) (s : State) (completion : value) :
  refused s = false -> net w = Up ->
  openrouter w (gateway_args s) = Ok completion ->
  no_reply_text completion ->
  let res := ChatApi.answer (serve (development w) (openrouter w) (request s)) in
  exists text rest,
    ChatApi.code res = 500%Z
    /\ ChatApi.payload res = Obj (("error", Str text) :: rest)
    /\ text <> ""
    /\ (forall v, ChatApi.reply_of completion = Ok v ->
                  text = "No response from API" /\ rest = [])
    /\ exists did s',
         converse w s = (did, Returned s')
         /\ messages s' = (messages s ++ [userMessage s; error_turn text])%list
         /\ isLoading s' = false.
Proof.
  intros A U G N res.
  pose proof (converse_accepted w s A) as C. cbv zeta in C.
  rewrite (fails_closing_turn w s (malformed_payload w s completion U G N)),
    Controller.shown_error_turn in C.
  unfold diagnostic in C. rewrite U, G in C.
  assert (L : messages (closed (error_turn
                (match ChatApi.reply_of completion with
                 | Ok _ => "No response from API"
                 | Throw e => snd (failure_kind (JS.status e))
                 end)) (sent s s)) =
              (messages s ++ [userMessage s; error_turn
                (match ChatApi.reply_of completion with
                 | Ok _ => "No response from API"
                 | Throw e => snd (failure_kind (JS.status e))
                 end)])%list).
  { cbn [closed sent messages]. rewrite <- app_assoc. reflexivity. }
  subst res. destruct (serve_request (development w) (openrouter w) s) as (_ & ->).
  rewrite G. cbn [bind]. unfold no_reply_text in N.
  destruct (ChatApi.reply_of completion) as [v|e] eqn:R.
  - assert (F : truthy v = false) by (destruct N as [->|[->| ->]]; reflexivity).
    rewrite F. exists "No response from API", [].
    repeat split; try discriminate.
    do 2 eexists. split; [exact C|]. split; [exact L | reflexivity].
  - destruct (Route.classify_is_error (development w) e) as (text & rest & P & E & T & S).
    exists text, rest. rewrite P.
    assert (K : ChatApi.code (ChatApi.classify (development w) e) = 500%Z).
    { pose proof (Route.reply_of_throws completion e R) as St.
      unfold ChatApi.classify. rewrite St. reflexivity. }
    repeat split; [exact K | exact T | discriminate | discriminate |].
    do 2 eexists. split; [exact C|]. rewrite E. split; [exact L | reflexivity].
Qed.

(** ** Error turns in later requests *)

(** The turn that closes a failed exchange is an error turn. *)
Lemma failed_closing_turn (out : result Response) (t : Turn) :
  failed out -> closing_turn out = Ok t ->
  exists detail, t = error_turn detail.
Proof.
  unfold failed, closing_turn.
  destruct out as [response|e].
  - destruct (json response) as [data|e].
    + intros ->. destruct (get data "error") as [err|e]; cbn [bind];
        [|discriminate].
      destruct (to_string _) as [detail|e]; cbn [bind];
        intros H; inversion H. eexists; reflexivity.
    + intros _ H. inversion H. eexists; reflexivity.
  - intros _ H. inversion H. eexists; reflexivity.
Qed.

(** A turn whose content is a string crosses the wire unchanged. *)
Lemma wire_turn_string (r : Role) (text : string) :
  wire_turn {| role := r; content := Str text |}
  = turn_value {| role := r; content := Str text |}.
Proof. reflexivity. Qed.

(** ** The payload the route never sends *)

(** A payload that is the JSON literal [null] is an answer the component
    cannot turn into a turn: the updater reads a property of [null] when
    React runs it, outside the [try]. *)
Lemma null_payload_unmounts (s : State) (st : Z) :
  refused s = false ->
  exists k e,
    snd (run (sendMessage s) s) = Waiting (sent s s) k
    /\ snd (run (k (Ok {| status := st; json := Ok Null |})) (sent s s)) = RenderError e.
Proof.
  intros A. destruct (Controller.sendMessage_accepted s s A) as (k & Hrun & Hk).
  exists k. rewrite Hrun, Hk. unfold closing_turn. cbn [json].
  destruct (ok _); cbn; eexists; split; reflexivity.
Qed.

(** The route never sends it: every answer is an object. *)
Lemma answer_is_object (development : bool) (openrouter : ChatApi.Gateway)
    (req : ChatApi.Req) :
  exists fields,
    ChatApi.payload (ChatApi.answer (ChatApi.handler development openrouter req))
    = Obj fields.
Proof.
  unfold ChatApi.handler.
  destruct (negb _); [eexists; reflexivity|].
  destruct (ChatApi.attempt openrouter req) as [[res|e] calls] eqn:E; cbn.
  - unfold ChatApi.attempt in E.
    destruct (destructure _ _ _) as [m|x]; [|discriminate].
    destruct (negb (truthy m) || negb (isArray m)).
    + injection E as <- _. eexists; reflexivity.
    + injection E as E _.
      destruct (openrouter _) as [c|x]; cbn in E; [|discriminate].
      destruct (ChatApi.reply_of c) as [r|x]; cbn in E; [|discriminate].
      destruct (negb (truthy r)); injection E as <-; eexists; reflexivity.
  - destruct (Route.classify_is_error development e) as (text & rest & -> & _).
    eexists; reflexivity.
Qed.

End EndToEnd.

(* ===================================================================== *)
(** * Properties of the persistence helpers *)
(* ===================================================================== *)

Module Persistence.
Import JS Database.

Lemma guarded_returns (body : Thrown + value) (label : string) (v : value) :
  exists w, fst (guarded body label v) = Returns w.
Proof. destruct body; eexists; reflexivity. Qed.

Lemma guarded_fallback (body : Thrown + value) (label : string) (v : value) (t : Thrown) :
  body = inl t -> fst (guarded body label v) = Returns v.
Proof. intros ->. reflexivity. Qed.

Lemma data_of_fails (client : Client) (q : Query) :
  query_fails client q -> exists t, data_of (client q) = inl t.
Proof.
  unfold query_fails, data_of. destruct (client q) as [answer|e].
  - destruct answer; try (intros _; eexists; reflexivity);
      intros (err & G & T); cbn in G; injection G as <-;
      try discriminate T.
    cbn. rewrite T. eexists; reflexivity.
  - intros _. eexists; reflexivity.
Qed.

Lemma or_empty_fails (r : Thrown + value) (t : Thrown) :
  r = inl t -> or_empty r = inl t.
Proof. intros ->. reflexivity. Qed.

Lemma connect_absent (createClient : value -> value -> result Client)
    (supabaseUrl supabaseAnonKey : value) :
  truthy supabaseUrl = false \/ truthy supabaseAnonKey = false ->
  connect createClient supabaseUrl supabaseAnonKey = Ok None.
Proof.
  unfold connect. intros [-> | ->]; [reflexivity|].
  rewrite andb_false_r. reflexivity.
Qed.

Lemma initializeDatabase_returns (supabase : option Client) :
  fst (initializeDatabase supabase) = Returns Undefined.
Proof.
  unfold initializeDatabase. destruct supabase as [client|]; [|reflexivity].
  destruct (create_tables client _) as [[t|] lines]; reflexivity.
Qed.

(** C8.  No call of an exported function ends in an exception: each one
    returns.  When the client is not configured, or a chain the call awaits
    fails, the functions that give one record return [null] and those that
    give a list return an empty array. *)
Theorem persistence_never_throws (supabase : option Client) (op : Operation) :
  (exists v, fst (call supabase op) = Returns v)
  /\ (unavailable supabase op -> fst (call supabase op) = Returns (fallback op)).
Proof.
  split.
  - destruct op; cbn [call];
      try (eexists; apply initializeDatabase_returns);
      destruct supabase as [client|]; try (eexists; reflexivity);
      apply guarded_returns.
  - intros U. destruct op; cbn [call fallback];
      try apply initializeDatabase_returns;
      (destruct supabase as [client|]; [|reflexivity]);
      destruct U as (q & [<-|[]] & Q);
      destruct (data_of_fails client _ Q) as (t & D);
      cbv beta delta [saveConversation saveMessage getConversationHistory
                      getUserConversations createUser getUserById] iota;
      rewrite D; reflexivity.
Qed.

End Persistence.

(* ===================================================================== *)
(** * The scenarios, checked *)
(* ===================================================================== *)

Module Checked.
Import JS ChatInterface Deployment Scenario.

(** Submit "Hello", the gateway says "Hi there!". *)
Lemma hello_hi_there :
  snd (converse (saying "Hi there!") (typed "Hello")) =
    Returned (mkState [greeting;
                       {| role := user; content := Str "Hello" |};
                       {| role := assistant; content := Str "Hi there!" |}]
                      "" false true false false).
Proof.
  destruct (EndToEnd.exchange_in_order (saying "Hi there!") (typed "Hello")
              (completion_saying "Hi there!") "Hi there!")
    as (_ & _ & _ & _ & C);
    [vm_compute; discriminate | reflexivity | reflexivity | reflexivity
    | reflexivity | discriminate |].
  rewrite C. reflexivity.
Defined.

(** Two exchanges from the first render: five turns. *)
Lemma two_exchanges_five_turns :
  length (messages (ui (exchanges mount
            [("Hello", answered "Hi there!"); ("And now?", answered "Still here.")])))
  = 5.
Proof.
  apply (Controller.log_length_after_exchanges
           [("Hello", answered "Hi there!"); ("And now?", answered "Still here.")]).
  repeat constructor; try (vm_compute; discriminate);
    eexists; do 2 eexists; repeat split.
Defined.

(** Submit the empty text: nothing changes. *)
Lemma empty_submit_changes_nothing :
  ui (step mount Submit) = ui mount /\ inflight (step mount Submit) = [].
Proof.
  destruct (Controller.submit_refused_is_noop mount) as (U & _ & F & _).
  - left. reflexivity.
  - split; [exact U | exact F].
Defined.

(** Submit "Hello" with no connection. *)
Lemma offline_hello :
  exists did s' t detail,
    converse offline (typed "Hello") = (did, Returned s')
    /\ messages s' = (messages (typed "Hello") ++ [userMessage (typed "Hello"); t])%list
    /\ last (messages s') greeting = t
    /\ role t = assistant
    /\ content t = Str ("Error: " ++ detail)
    /\ isLoading s' = false.
Proof.
  apply (EndToEnd.failure_becomes_error_turn offline (typed "Hello")).
  - reflexivity.
  - apply (no_network _ _ (TypeError "Failed to fetch")). reflexivity.
Defined.

(** Submit "Hello", the gateway transport answers 401. *)
Lemma hello_401 :
  exists did s',
    converse (refusing 401) (typed "Hello") = (did, Returned s')
    /\ last (messages s') greeting =
         {| role := assistant; content := Str "Error: Invalid API key" |}
    /\ isLoading s' = false.
Proof.
  destruct (EndToEnd.gateway_error_classified (refusing 401) (typed "Hello")
              {| name := "APIError"; message := "request failed";
                 JS.status := Some 401%Z |})
    as (_ & _ & _ & _ & did & s' & C & _ & L & T);
    [reflexivity | reflexivity | reflexivity |].
  exists did, s'. split; [exact C|]. split; [exact (T eq_refl) | exact L].
Defined.

(** Submit "Hello", the gateway answers with an empty content. *)
Lemma hello_empty_reply :
  exists did s',
    converse (saying "") (typed "Hello") = (did, Returned s')
    /\ messages s' =
         [greeting; {| role := user; content := Str "Hello" |};
          {| role := assistant; content := Str "Error: No response from API" |}]
    /\ isLoading s' = false.
Proof.
  destruct (EndToEnd.missing_reply_is_failure (saying "") (typed "Hello")
              (completion_saying ""))
    as (text & rest & _ & _ & _ & N & did & s' & C & M & L);
    [reflexivity | reflexivity | reflexivity | cbn; auto |].
  destruct (N (Str "") eq_refl) as (-> & _).
  exists did, s'. split; [exact C|]. split; [exact M | exact L].
Defined.

(** A client that reports an error on every chain. *)
Lemma broken_client_gives_null :
  fst (Database.call (Some broken) (Database.SaveMessage (Str "hi")))
  = Database.Returns Null.
Proof.
  apply (Persistence.persistence_never_throws (Some broken)
           (Database.SaveMessage (Str "hi"))).
  eexists. split; [left; reflexivity|].
  cbn. eexists. split; reflexivity.
Defined.

(** Dark and back to light. *)
Lemma dark_and_back :
  style (toggleTheme (toggleTheme mount)) = applyDarkMode false.
Proof.
  destruct (Controller.toggleTheme_twice mount reach_mount) as (_ & _ & E).
  rewrite E. reflexivity.
Defined.

End Checked.

(* ===================================================================== *)
(** * More on the component *)
(* ===================================================================== *)

Module ControllerMore.
Import JS ChatInterface ChatView.

(** ** What a handler can and cannot touch *)

(** Whatever a handler does up to its next [await], the log only grows and
    the three display preferences stay as they are. *)
Lemma run_frame (t : task unit) (s : State) :
  match snd (run t s) with
  | Returned s' | Threw s' _ | Waiting s' _ =>
      (exists more, messages s' = messages s ++ more)%list
      /\ autoScroll s' = autoScroll s
      /\ darkMode s' = darkMode s
      /\ showSettings s' = showSettings s
  | RenderError _ => True
  end.
Proof.
  revert s. induction t as [a|e|ef t IH|rq k _]; intros s; cbn.
  - split; [exists []; now rewrite app_nil_r | repeat split].
  - split; [exists []; now rewrite app_nil_r | repeat split].
  - destruct (apply ef s) as [s1|e] eqn:A; [|exact I].
    specialize (IH s1). destruct (run t s1) as [tr pr]. cbn in *.
    assert (F : (exists more, messages s1 = messages s ++ more)%list
                /\ autoScroll s1 = autoScroll s /\ darkMode s1 = darkMode s
                /\ showSettings s1 = showSettings s).
    { destruct ef as [|appended|v|b|rq]; cbn in A;
        try destruct (shown appended); inversion A; subst; cbn;
        (split; [|repeat split]);
        solve [exists []; now rewrite app_nil_r | eexists; reflexivity]. }
    destruct F as ((m1 & M1) & A1 & D1 & S1).
    destruct pr as [s'|s' e|s' k|e]; try exact I;
      destruct IH as ((m2 & M2) & A2 & D2 & S2);
      (split; [exists (m1 ++ m2)%list; rewrite M2, M1, app_assoc; reflexivity|]);
      repeat split; congruence.
  - split; [exists []; now rewrite app_nil_r | repeat split].
Qed.

Lemma commit_frame (p : Page) (waiting : list (result Response -> task unit))
    (t : task unit) :
  let p' := commit p waiting (run t (ui p)) in
  (exists more, messages (ui p') = messages (ui p) ++ more)%list
  /\ autoScroll (ui p') = autoScroll (ui p)
  /\ darkMode (ui p') = darkMode (ui p)
  /\ showSettings (ui p') = showSettings (ui p).
Proof.
  pose proof (run_frame t (ui p)) as F.
  destruct (run t (ui p)) as [tr pr]. cbn in *.
  destruct pr; cbn; try exact F.
  split; [exists []; now rewrite app_nil_r | repeat split].
Qed.

Lemma step_appends (p : Page) (ev : event) :
  (exists more, messages (ui (step p ev)) = messages (ui p) ++ more)%list.
Proof.
  assert (Same : (exists more : list Turn, messages (ui p) = messages (ui p) ++ more)%list)
    by (exists []; now rewrite app_nil_r).
  unfold step. destruct (unmounted p); [exact Same|]. cbv zeta.
  destruct ev; try exact Same.
  - destruct (isLoading (ui p)); exact Same.
  - exact (proj1 (commit_frame p (inflight p) (sendMessage (ui p)))).
  - destruct (inflight p) as [|k rest]; [exact Same|].
    exact (proj1 (commit_frame p rest (k out))).
Qed.

Lemma steps_appends (evs : list event) (p : Page) :
  (exists more, messages (ui (steps p evs)) = messages (ui p) ++ more)%list.
Proof.
  unfold steps. revert p. induction evs as [|ev evs IH]; intros p; cbn [fold_left].
  - exists []. now rewrite app_nil_r.
  - destruct (IH (step p ev)) as (m2 & E2).
    destruct (step_appends p ev) as (m1 & E1).
    exists (m1 ++ m2)%list. now rewrite E2, E1, app_assoc.
Qed.

(** X2.  The log is append-only: whatever the user and the network do, in
    whatever order, the log afterwards is the log before with turns added
    at the end.  From the first render it therefore always begins with the
    greeting. *)
Theorem log_only_grows (p : Page) (evs : list event) :
  (exists more, messages (ui (steps p evs)) = messages (ui p) ++ more)%list
  /\ (exists later, messages (ui (steps mount evs)) = greeting :: later).
Proof.
  assert (G : forall q, (exists more, messages (ui (steps q evs))
                                     = messages (ui q) ++ more)%list).
  { unfold steps. induction evs as [|ev evs IH]; intros q; cbn [fold_left].
    - exists []. now rewrite app_nil_r.
    - destruct (IH (step q ev)) as (m2 & E2).
      destruct (step_appends q ev) as (m1 & E1).
      exists (m1 ++ m2)%list. now rewrite E2, E1, app_assoc. }
  split; [apply G|].
  destruct (G mount) as (more & E). exists more. exact E.
Qed.

(** ** One request at a time *)

(** X1.  On every page the event loop reaches, as long as the component is
    on screen, at most one request is in flight, and [isLoading] is true
    exactly when one is. *)
Theorem one_request_at_a_time (p : Page) :
  reachable p -> unmounted p = None ->
  length (inflight p) <= 1
  /\ (isLoading (ui p) = true <-> inflight p <> []).
Proof.
  intros R M.
  destruct (Controller.reachable_single_flight p R M) as [(F & L) | (k & F & L & _)];
    rewrite F, L; cbn; split; try lia; split; congruence.
Qed.

(** ** The shape of the log *)

Lemma alternates_snoc (log : list Turn) (t : Turn) (first : Role) :
  alternates first log = true ->
  role t = (if Nat.even (length log) then first
            else match first with user => assistant | assistant => user end) ->
  alternates first (log ++ [t]) = true.
Proof.
  revert first. induction log as [|x log IH]; intros first A R.
  - cbn in *. rewrite R. destruct first; reflexivity.
  - cbn [app alternates length] in *.
    destruct first, (role x); try discriminate; apply IH; try exact A;
      rewrite R, Nat.even_succ, <- Nat.negb_even;
      destruct (Nat.even (length log)); reflexivity.
Qed.

Lemma closing_turn_role (out : result Response) (t : Turn) :
  closing_turn out = Ok t -> role t = assistant.
Proof.
  unfold closing_turn. destruct out as [response|e].
  - destruct (json response) as [data|e].
    + destruct (ok response).
      * destruct (get data "message"); cbn; intros H; inversion H; reflexivity.
      * destruct (get data "error"); cbn; [|discriminate].
        destruct (to_string _); cbn; intros H; inversion H; reflexivity.
    + intros H; inversion H; reflexivity.
  - intros H; inversion H; reflexivity.
Qed.

Lemma well_shaped_step (p : Page) (ev : event) :
  single_flight p -> well_shaped (ui p) -> well_shaped (ui (step p ev)).
Proof.
  intros SF W. destruct (unmounted p) as [e|] eqn:M.
  - now rewrite (Controller.step_unmounted p ev e M).
  - specialize (SF M). unfold step. rewrite M. cbv zeta.
    destruct ev; try exact W.
    + destruct (isLoading (ui p)) eqn:L; [exact W|].
      unfold well_shaped in *. cbn. now rewrite L in W.
    + destruct (refused (ui p)) eqn:R.
      * rewrite (Controller.sendMessage_refused _ _ R). exact W.
      * destruct (Controller.sendMessage_accepted (ui p) (ui p) R) as (k & -> & _).
        apply Controller.accepted_iff in R. destruct R as (_ & L).
        destruct W as (A & O). rewrite L in O. cbn in O.
        unfold well_shaped. cbn. split.
        -- apply alternates_snoc; [exact A|].
           rewrite <- Nat.negb_odd, O. reflexivity.
        -- rewrite length_app, Nat.add_1_r, Nat.odd_succ, <- Nat.negb_odd, O.
           reflexivity.
    + destruct SF as [(F & L) | (k & F & L & K)]; rewrite F; [exact W|].
      rewrite K. destruct (shown (closing_turn out)) as [t|e] eqn:C; cbn; [|exact W].
      apply Controller.shown_ok in C. destruct C as (C & _).
      destruct W as (A & O). rewrite L in O. cbn in O.
      unfold well_shaped. cbn. split.
      * apply alternates_snoc; [exact A|].
        rewrite <- Nat.negb_odd, O. cbn. exact (closing_turn_role out t C).
      * rewrite length_app, Nat.add_1_r, Nat.odd_succ, <- Nat.negb_odd, O.
        reflexivity.
Qed.

(** X3.  On every page the event loop reaches, the roles of the log
    alternate, beginning with the assistant greeting; the number of turns
    is odd when no request is pending (the last turn is the assistant's)
    and even while one is (the last turn is the user's). *)
Theorem log_alternates (p : Page) :
  reachable p ->
  alternates assistant (messages (ui p)) = true
  /\ Nat.odd (length (messages (ui p))) = negb (isLoading (ui p)).
Proof.
  intros R. induction R as [|p ev R IH].
  - split; reflexivity.
  - apply well_shaped_step; [now apply Controller.reachable_single_flight | exact IH].
Qed.

(** ** The settings panel *)

(** X4.  The settings panel is hidden at first.  While the component is on
    screen, the Settings button flips it, Close hides it whatever it was,
    and no other event (typing, submitting, an answer arriving, the
    auto-scroll and dark-mode boxes) shows or hides it. *)
Theorem settings_panel (p : Page) (ev : event) :
  unmounted p = None ->
  showSettings (ui mount) = false
  /\ showSettings (ui (step p ev)) =
       match ev with
       | SettingsClick => negb (showSettings (ui p))
       | CloseClick => false
       | _ => showSettings (ui p)
       end.
Proof.
  intros M. split; [reflexivity|]. unfold step. rewrite M. cbv zeta.
  destruct ev; try reflexivity.
  - destruct (isLoading (ui p)); reflexivity.
  - apply (commit_frame p (inflight p) (sendMessage (ui p))).
  - destruct (inflight p) as [|k rest]; [reflexivity|].
    apply (commit_frame p rest (k out)).
Qed.

(** ** The Send button *)

(** X5.  The Send button is disabled exactly when [sendMessage] would
    return at its guard.  With the button enabled, a submit sends one
    request, the one of the current state; with the button disabled, a
    submit leaves the state and the requests in flight as they are. *)
Theorem send_button_matches_guard (p : Page) :
  unmounted p = None ->
  submitDisabled (ui p) = refused (ui p)
  /\ (submitDisabled (ui p) = false ->
      exists k, inflight (step p Submit) = (inflight p ++ [k])%list
                /\ last (trace (step p Submit)) PreventDefault = Fetch (request (ui p)))
  /\ (submitDisabled (ui p) = true ->
      ui (step p Submit) = ui p /\ inflight (step p Submit) = inflight p).
Proof.
  intros M.
  assert (E : submitDisabled (ui p) = refused (ui p))
    by (unfold submitDisabled, refused; apply orb_comm).
  split; [exact E|]. rewrite E. split; intros R.
  - destruct (Controller.sendMessage_accepted (ui p) (ui p) R) as (k & Hrun & _).
    exists k. unfold step. rewrite M. cbv zeta. rewrite Hrun. cbn [commit inflight trace].
    split; [reflexivity|].
    change [PreventDefault; SetMessages (Ok (userMessage (ui p))); SetInput "";
            SetIsLoading true; Fetch (request (ui p))]
      with ([PreventDefault; SetMessages (Ok (userMessage (ui p))); SetInput "";
             SetIsLoading true] ++ [Fetch (request (ui p))])%list.
    rewrite app_assoc. apply last_last.
  - rewrite (Controller.step_submit_refused p M R). split; reflexivity.
Qed.

(** ** Exchanges that fail count too *)

Lemma presentable_delivers (out : result Response) :
  presentable out <-> delivers out.
Proof.
  unfold delivers. split.
  - intros [e | st e | response data text J O G R
            | response data error detail J O G T]; unfold closing_turn.
    + eexists; reflexivity.
    + eexists; reflexivity.
    + rewrite J, O, G. cbn [bind]. exists {| role := assistant; content := text |}.
      apply Controller.shown_ok. split; [reflexivity | exact R].
    + rewrite J, O, G. cbn [bind]. rewrite T. eexists; reflexivity.
  - intros (t & C). apply Controller.shown_ok in C. destruct C as (C & R).
    unfold closing_turn in C. destruct out as [response|e]; [|constructor].
    destruct (json response) as [data|e] eqn:J.
    + destruct (ok response) eqn:O.
      * destruct (get data "message") as [text|e] eqn:G; [|discriminate C].
        cbn [bind] in C. injection C as <-.
        exact (reply_shown response data text J O G R).
      * destruct (get data "error") as [error|e] eqn:G; [|discriminate C].
        cbn [bind] in C.
        destruct (to_string (or_else error (Str "Something went wrong")))
          as [detail|e] eqn:T; [|discriminate C].
        exact (error_told response data error detail J O G T).
    + destruct response as [st j]. cbn in J. subst j. constructor.
Qed.

Lemma not_presentable_throws (out : result Response) :
  ~ presentable out -> exists e, shown (closing_turn out) = Throw e.
Proof.
  intros N. destruct (shown (closing_turn out)) as [t|e] eqn:C.
  - exfalso. apply N, presentable_delivers. exists t. exact C.
  - exists e. reflexivity.
Qed.

(** X6.  Every exchange adds exactly two turns, whether it succeeds or
    fails, as long as its answer can be put on the screen: [fetch]
    rejected, the body was not JSON, a success whose [message] can be read
    and shown, or another status whose [error] can be read and printed.
    After [n] such exchanges in a row from the first render, each with a
    text that is not blank, the log has [1 + 2 * n] turns, no request is in
    flight and [isLoading] is false.  One more exchange whose answer is of
    none of these kinds adds the user's turn only and takes the component
    off the screen. *)
Theorem every_exchange_adds_two (xs : list (string * result Response)) :
  Forall (fun x => trim (fst x) <> "" /\ presentable (snd x)) xs ->
  length (messages (ui (exchanges mount xs))) = 1 + 2 * length xs
  /\ idle (exchanges mount xs)
  /\ forall text out,
       trim text <> "" -> ~ presentable out ->
       let p := exchange (exchanges mount xs) (text, out) in
       unmounted p <> None
       /\ length (messages (ui p)) = 2 + 2 * length xs
       /\ isLoading (ui p) = true.
Proof.
  intros H.
  destruct (Controller.exchanges_length xs mount Controller.mount_idle) as (I & L).
  - eapply Forall_impl; [|exact H]. intros x (T & N).
    split; [exact T | now apply presentable_delivers].
  - split; [rewrite L; cbn; lia|]. split; [exact I|].
    intros text out T N p.
    destruct (not_presentable_throws out N) as (e & C).
    subst p. rewrite (Controller.exchange_idle_unshown _ text out e I T C).
    cbn [unmounted ui messages isLoading]. split; [discriminate|].
    split; [|reflexivity].
    rewrite length_app, L. cbn. lia.
Qed.

End ControllerMore.

(* ===================================================================== *)
(** * More on the component and the route together *)
(* ===================================================================== *)

Module EndToEndMore.
Import JS ChatInterface Deployment.

(** What React can show stays so across the wire. *)
Lemma renderable_wire (v : value) : renderable (over_the_wire v) = renderable v.
Proof.
  revert v. fix IH 1. intros [| |b|r|x|items|fields]; try reflexivity.
  - cbn. destruct (_ || _); reflexivity.
  - cbn. induction items as [|y rest IHrest]; [reflexivity|].
    cbn. rewrite IHrest. f_equal.
    pose proof (IH y) as Hy. destruct y; try reflexivity; exact Hy.
Qed.

(** The answer of the route to a reply of the gateway, as the component
    reads it. *)
Lemma closing_turn_message (reply : value) :
  truthy reply = true ->
  closing_turn (Ok {| status := 200;
                      json := Ok (over_the_wire (Obj [("message", reply)])) |})
  = Ok {| role := assistant; content := over_the_wire reply |}.
Proof.
  intros T. destruct reply; try discriminate T; reflexivity.
Qed.

(** What the exchange of [s] with [w] ends in, when the route is reached
    and the gateway gives a content. *)
Lemma reply_with_content (w : World) (s : State) (completion reply : value) :
  net w = Up ->
  openrouter w (gateway_args s) = Ok completion ->
  ChatApi.reply_of completion = Ok reply -> truthy reply = true ->
  closing_turn (Deployment.reply w (request s))
  = Ok {| role := assistant; content := over_the_wire reply |}.
Proof.
  intros U G R T. rewrite (EndToEnd.reply_up w _ U).
  destruct (EndToEnd.serve_request (development w) (openrouter w) s) as (_ & ->).
  rewrite G. cbn [bind]. rewrite R, T. cbn [ChatApi.code ChatApi.payload].
  now apply closing_turn_message.
Qed.

Lemma reply_delivers (w : World) (s : State) :
  (forall st payload, net w <> Foreign st payload) ->
  (forall completion reply,
     net w = Up -> openrouter w (gateway_args s) = Ok completion ->
     ChatApi.reply_of completion = Ok reply -> truthy reply = true ->
     renderable reply = true) ->
  exists t, shown (closing_turn (Deployment.reply w (request s))) = Ok t
            /\ role t = assistant.
Proof.
  intros NF Sh.
  assert (E : forall d, closing_turn (Deployment.reply w (request s)) = Ok (error_turn d) ->
              exists t, shown (closing_turn (Deployment.reply w (request s))) = Ok t
                        /\ role t = assistant).
  { intros d ->. exists (error_turn d). split; reflexivity. }
  case_eq (net w); [intros N | intros e N | intros st e N | intros st payload N].
  - case_eq (openrouter w (gateway_args s)); [intros completion G | intros e G].
    + destruct (ChatApi.reply_of completion) as [reply|e] eqn:R.
      * destruct (truthy reply) eqn:T.
        -- rewrite (reply_with_content w s completion reply N G R T).
           exists {| role := assistant; content := over_the_wire reply |}.
           split; [|reflexivity].
           apply Controller.shown_ok. split; [reflexivity|].
           cbn [content]. rewrite renderable_wire.
           exact (Sh completion reply N G R T).
        -- eapply E. rewrite (EndToEnd.reply_up w _ N).
           destruct (EndToEnd.serve_request (development w) (openrouter w) s) as (_ & ->).
           rewrite G. cbn [bind]. rewrite R, T.
           apply (EndToEnd.closing_turn_error_answer 500 "No response from API" []);
             [reflexivity | discriminate].
      * eapply E. rewrite (EndToEnd.reply_up w _ N).
        destruct (EndToEnd.serve_request (development w) (openrouter w) s) as (_ & ->).
        rewrite G. cbn [bind]. rewrite R.
        apply EndToEnd.closing_turn_classified.
    + eapply E. apply (EndToEnd.fails_closing_turn w s).
      exact (gateway_error w s e N G).
  - eapply E. apply (EndToEnd.fails_closing_turn w s). exact (no_network w s e N).
  - eapply E. apply (EndToEnd.fails_closing_turn w s). exact (error_page w s st e N).
  - exfalso. exact (NF st payload N).
Qed.

(** X8.  No submitted turn is dropped, as long as the route is reached or
    not reached at all and the content the gateway gives, if any, is one
    React can show (a text, or anything but an object and an array holding
    one).  Whatever else the gateway does (throw, answer without text), an
    accepted [sendMessage] returns, and the log is the log before with the
    user turn and exactly one assistant turn; [isLoading] is false again.
    A content React cannot show is forwarded by the route all the same,
    with the status 200, and takes the component off the screen. *)
Theorem every_submit_is_answered (w : World) (s : State) :
  refused s = false ->
  (forall st payload, net w <> Foreign st payload) ->
  ((forall completion reply,
      net w = Up -> openrouter w (gateway_args s) = Ok completion ->
      ChatApi.reply_of completion = Ok reply -> truthy reply = true ->
      renderable reply = true) ->
   exists t,
     converse w s =
       ([PreventDefault; SetMessages (Ok (userMessage s)); SetInput "";
         SetIsLoading true; Fetch (request s);
         SetMessages (Ok t); SetIsLoading false],
        Returned (mkState (messages s ++ [userMessage s; t]) "" false
                          (autoScroll s) (darkMode s) (showSettings s)))
     /\ role t = assistant)
  /\ (forall completion reply,
       net w = Up -> openrouter w (gateway_args s) = Ok completion ->
       ChatApi.reply_of completion = Ok reply -> truthy reply = true ->
       renderable reply = false ->
       ChatApi.code (ChatApi.answer (serve (development w) (openrouter w) (request s)))
         = 200%Z
       /\ snd (converse w s) = RenderError not_a_child).
Proof.
  intros A NF. split.
  - intros Sh. destruct (reply_delivers w s NF Sh) as (t & C & R).
    exists t. split; [|exact R].
    rewrite (EndToEnd.converse_accepted w s A), C.
    apply Controller.shown_ok in C. destruct C as (-> & _).
    unfold closed, sent. cbn [messages input autoScroll darkMode showSettings].
    rewrite <- app_assoc. reflexivity.
  - intros completion reply U G R T N. split.
    + destruct (EndToEnd.serve_request (development w) (openrouter w) s) as (_ & ->).
      rewrite G. cbn [bind]. rewrite R, T. reflexivity.
    + rewrite (EndToEnd.converse_accepted w s A).
      rewrite (reply_with_content w s completion reply U G R T).
      unfold shown. cbn [bind content]. rewrite renderable_wire, N. reflexivity.
Qed.

(** ** Error turns in later requests *)

(** C10.  An exchange fails and the component appends a turn for it: the
    turn has the role assistant and a content that starts with
    ["Error: "].  Whatever happens on the page afterwards, the next
    [sendMessage] that is accepted sends this turn with its request, and
    the route hands it to the gateway, content included, among the other
    turns.  Nothing marks it: a genuine reply with the same text would have
    left the very same state. *)
Theorem error_turn_is_sent_again (p : Page) (text : string)
    (out : result Response) (evs : list event)
    (development : bool) (openrouter : ChatApi.Gateway) :
  idle p -> trim text <> "" -> failed out ->
  let failure := exchange p (text, out) in
  let later := steps failure evs in
  unmounted failure = None ->
  unmounted later = None -> refused (ui later) = false ->
  exists detail,
    let t := {| role := assistant; content := Str ("Error: " ++ detail) |} in
    messages (ui failure)
      = (messages (ui p) ++ [{| role := user; content := Str text |}; t])%list
    /\ (exists rq items,
          last (trace (step later Submit)) PreventDefault = Fetch rq
          /\ body rq = Obj [("messages", Arr items)]
          /\ In (turn_value t) items
          /\ exists forwarded,
               ChatApi.gateway_calls (serve development openrouter rq)
                 = [ChatApi.create_args (Arr forwarded)]
               /\ In (turn_value t) forwarded)
    /\ (exists genuine,
          succeeds_with (content t) genuine
          /\ ui (exchange p (text, genuine)) = ui failure).
Proof.
  intros I T F failure later M1 M2 A.
  destruct (shown (closing_turn out)) as [t|e] eqn:C.
  2:{ subst failure. rewrite (Controller.exchange_idle_unshown p text out e I T C) in M1.
      discriminate M1. }
  pose proof (Controller.exchange_idle p text out t I T C) as E. cbv zeta in E.
  apply Controller.shown_ok in C. destruct C as (C & _).
  destruct (EndToEnd.failed_closing_turn out t F C) as (detail & ->).
  exists detail. cbv zeta. fold (error_turn detail).
  assert (Here : In (error_turn detail) (messages (ui later))).
  { destruct (ControllerMore.steps_appends evs failure) as (more & S).
    fold later in S. rewrite S. subst failure. rewrite E. cbn [ui messages].
    apply in_or_app. left. apply in_or_app. right. right. left. reflexivity. }
  split; [subst failure; rewrite E; reflexivity|]. split.
  - exists (request (ui later)). eexists. split; [|split; [reflexivity|split]].
    + destruct (Controller.sendMessage_accepted (ui later) (ui later) A)
        as (k & Hrun & _).
      unfold step. rewrite M2. cbv zeta. rewrite Hrun. cbn [commit trace].
      change [PreventDefault; SetMessages (Ok (userMessage (ui later))); SetInput "";
              SetIsLoading true; Fetch (request (ui later))]
        with ([PreventDefault; SetMessages (Ok (userMessage (ui later))); SetInput "";
               SetIsLoading true] ++ [Fetch (request (ui later))])%list.
      rewrite app_assoc. apply last_last.
    + apply in_map, in_or_app. now left.
    + destruct (EndToEnd.serve_request development openrouter (ui later)) as (-> & _).
      eexists. split; [reflexivity|].
      unfold error_turn. rewrite <- EndToEnd.wire_turn_string.
      apply in_map, in_or_app. now left.
  - exists (Ok {| status := 200;
                  json := Ok (Obj [("message", content (error_turn detail))]) |}).
    split; [do 2 eexists; repeat split|].
    subst failure. rewrite E.
    assert (G : shown (closing_turn
                  (Ok {| status := 200;
                         json := Ok (Obj [("message", content (error_turn detail))]) |}))
                = Ok (error_turn detail)) by reflexivity.
    rewrite (Controller.exchange_idle p text _ (error_turn detail) I T G).
    reflexivity.
Qed.

End EndToEndMore.

(* ===================================================================== *)
(** * More on the route *)
(* ===================================================================== *)

Module RouteMore.
Import JS ChatApi.

Lemma attempt_calls (openrouter : Gateway) (req : Req) :
  match snd (attempt openrouter req) with
  | [] => forall items, destructure "req.body" (body req) "messages" <> Ok (Arr items)
  | [args] =>
      exists items, destructure "req.body" (body req) "messages" = Ok (Arr items)
                    /\ args = create_args (Arr items)
  | _ => False
  end.
Proof.
  unfold attempt.
  destruct (destructure "req.body" (body req) "messages") as [m|e]; cbn.
  - destruct m; cbn [isArray negb]; rewrite ?orb_true_r; cbn;
      try (intros ? H; discriminate H).
    eexists; split; reflexivity.
  - intros ? H; discriminate H.
Qed.

(** X9.  The gateway is called at most once per request, and exactly when
    the method is POST and [messages] is an array; the call carries that
    array as it came, whatever its elements are, with the fixed model and
    generation limits. *)
Theorem gateway_called_exactly_when (development : bool) (openrouter : Gateway)
    (req : Req) :
  match gateway_calls (handler development openrouter req) with
  | [] =>
      method req <> "POST"
      \/ forall items, destructure "req.body" (body req) "messages" <> Ok (Arr items)
  | [args] =>
      method req = "POST"
      /\ exists items,
           destructure "req.body" (body req) "messages" = Ok (Arr items)
           /\ args = Obj [("model", Str "meta-llama/llama-3.2-3b-instruct:free");
                          ("messages", Arr items);
                          ("max_tokens", Num "500");
                          ("temperature", Num "0.7")]
  | _ => False
  end.
Proof.
  unfold handler. destruct (method req =? "POST") eqn:M; cbn [negb].
  - apply String.eqb_eq in M. pose proof (attempt_calls openrouter req) as A.
    destruct (attempt openrouter req) as [[res|e] calls]; cbn in *;
      (destruct calls as [|args [|]]; [right; exact A | split; [exact M | exact A] | exact A]).
  - apply String.eqb_neq in M. left. exact M.
Qed.

Lemma classify_code (development : bool) (error : exn) :
  In (code (classify development error)) [401; 429; 402; 500]%Z.
Proof.
  unfold classify.
  Route.by_status (status error) ltac:(cbn; tauto).
Qed.

(** X10.  The route answers with one of seven statuses, whatever the
    request and whatever the gateway does: a status of the gateway other
    than 401, 429 and 402 is never passed on. *)
Theorem answer_codes (development : bool) (openrouter : Gateway) (req : Req) :
  In (code (answer (handler development openrouter req)))
     [200; 400; 401; 402; 405; 429; 500]%Z.
Proof.
  unfold handler. destruct (negb _); [cbn; tauto|].
  destruct (attempt openrouter req) as [[res|e] calls] eqn:A; cbn [answer].
  - unfold attempt in A.
    destruct (destructure _ _ _) as [m|x]; [|discriminate].
    destruct (negb (truthy m) || negb (isArray m)).
    + injection A as <- _. cbn; tauto.
    + injection A as A _.
      destruct (openrouter _) as [c|x]; cbn in A; [|discriminate].
      destruct (reply_of c) as [r|x]; cbn in A; [|discriminate].
      destruct (negb (truthy r)); injection A as <-; cbn; tauto.
  - pose proof (classify_code development e) as C. cbn in *. tauto.
Qed.

(** X11.  The answer is 200 exactly when the request is a POST with an
    array of messages, the gateway call returns, and the content of the
    first choice's message is truthy; the payload is then that content
    under [message]. *)
Theorem success_exactly_when (development : bool) (openrouter : Gateway) (req : Req) :
  code (answer (handler development openrouter req)) = 200%Z <->
  exists items completion reply,
    method req = "POST"
    /\ destructure "req.body" (body req) "messages" = Ok (Arr items)
    /\ openrouter (create_args (Arr items)) = Ok completion
    /\ reply_of completion = Ok reply
    /\ truthy reply = true
    /\ payload (answer (handler development openrouter req)) = Obj [("message", reply)].
Proof.
  split.
  - unfold handler. destruct (method req =? "POST") eqn:M; cbn [negb];
      [|discriminate].
    apply String.eqb_eq in M.
    destruct (attempt openrouter req) as [[res|e] calls] eqn:A; cbn [answer].
    + unfold attempt in A.
      destruct (destructure _ _ _) as [m|x] eqn:D; [|discriminate].
      destruct (negb (truthy m) || negb (isArray m)) eqn:G.
      * injection A as <- _. discriminate.
      * injection A as A _.
        destruct m as [| |b|r|x|items|fs]; cbn [isArray negb] in G;
          rewrite ?orb_true_r in G; try discriminate G.
        destruct (openrouter _) as [c|x] eqn:O; cbn in A; [|discriminate].
        destruct (reply_of c) as [r|x] eqn:R; cbn in A; [|discriminate].
        destruct (truthy r) eqn:T; cbn in A; injection A as <-; [|discriminate].
        intros _. exists items, c, r. repeat split; assumption.
    + pose proof (classify_code development e) as C. cbn in C.
      intros H. rewrite H in C. intuition discriminate.
  - intros (items & completion & reply & M & D & O & R & T & _).
    destruct (Route.handler_forwards development openrouter req items M D) as (_ & ->).
    rewrite O. cbn [bind]. rewrite R, T. reflexivity.
Qed.

(** X12.  Outside development the answer sent to the client never carries
    anything of the error that was caught: apart from a 200, the payload
    on the wire is [{ error }] alone, and its text is one of seven fixed
    strings. *)
Theorem production_hides_details (openrouter : Gateway) (req : Req) :
  let res := answer (handler false openrouter req) in
  code res = 200%Z
  \/ exists text,
       over_the_wire (payload res) = Obj [("error", Str text)]
       /\ In text ["Method not allowed"; "Messages array is required";
                   "No response from API"; "Invalid API key";
                   "Rate limit exceeded"; "Insufficient credits";
                   "Internal server error"].
Proof.
  cbv zeta. unfold handler. destruct (negb _); [right; eexists; split; [reflexivity | cbn; tauto]|].
  destruct (attempt openrouter req) as [[res|e] calls] eqn:A; cbn [answer].
  - unfold attempt in A.
    destruct (destructure _ _ _) as [m|x]; [|discriminate].
    destruct (negb (truthy m) || negb (isArray m)).
    + injection A as <- _. right; eexists; split; [reflexivity | cbn; tauto].
    + injection A as A _.
      destruct (openrouter _) as [c|x]; cbn in A; [|discriminate].
      destruct (reply_of c) as [r|x]; cbn in A; [|discriminate].
      destruct (negb (truthy r)); injection A as <-;
        [right; eexists; split; [reflexivity | cbn; tauto] | left; reflexivity].
  - right. unfold classify.
    Route.by_status (status e) ltac:(eexists; split; [reflexivity | cbn; tauto]).
Qed.

End RouteMore.

(* ===================================================================== *)
(** * More on the persistence helpers *)
(* ===================================================================== *)

Module PersistenceMore.
Import JS Database DatabaseView.

Lemma data_of_object (fields : list (string * value)) :
  data_of (Ok (Obj fields)) =
    if truthy (lookup "error" fields)
    then inl (AnswerError (lookup "error" fields))
    else inr (lookup "data" fields).
Proof. reflexivity. Qed.

(** X13.  What is stored is what is returned.  When the awaited chain answers
    with an object that carries no error, the functions that give one
    record return its [data] as it is, those that give a list return its
    [data], or an empty array when [data] is missing; nothing is written to
    the console. *)
Theorem data_is_returned (client : Client) (op : Operation) (q : Query)
    (fields : list (string * value)) :
  queries op = [q] ->
  client q = Ok (Obj fields) ->
  truthy (lookup "error" fields) = false ->
  call (Some client) op =
    (Returns (if gives_list op
              then or_else (lookup "data" fields) (Arr [])
              else lookup "data" fields),
     []).
Proof.
  intros Q A E.
  destruct op; cbn in Q; try discriminate Q; injection Q as <-;
    cbn [call gives_list];
    cbv beta delta [saveConversation saveMessage getConversationHistory
                    getUserConversations createUser getUserById] iota;
    rewrite A, data_of_object, E; reflexivity.
Qed.

Lemma guarded_or_empty_truthy (r : Thrown + value) (label : string) :
  exists v, fst (guarded (or_empty r) label (Arr [])) = Returns v /\ truthy v = true.
Proof.
  destruct r as [t|d]; cbn; [eexists; split; reflexivity|].
  unfold or_else. destruct (truthy d) eqn:T; eexists; split;
    try reflexivity; exact T.
Qed.

(** X14.  The functions that give a list never give [null] or [undefined]:
    whatever the client does, with or without configuration, the value
    they return is truthy. *)
Theorem lists_are_never_null (supabase : option Client) (op : Operation) :
  gives_list op = true ->
  exists v, fst (call supabase op) = Returns v /\ truthy v = true.
Proof.
  intros G.
  destruct op; try discriminate G; cbn [call];
    cbv beta delta [getConversationHistory getUserConversations] iota;
    (destruct supabase as [client|]; [|eexists; split; reflexivity]);
    apply guarded_or_empty_truthy.
Qed.

(** X15.  A failure is written to the console once, and what is written is the
    error itself: the [Error] the chain threw, or the [error] of its
    answer. *)
Theorem failure_is_logged_once (client : Client) (op : Operation) (q : Query) :
  queries op = [q] ->
  query_fails client q ->
  exists label t,
    call (Some client) op = (Returns (fallback op), [error label t])
    /\ thrown_by (client q) = Some t
    /\ (forall e, client q = Throw e -> t = Failure e)
    /\ (forall fields, client q = Ok (Obj fields) ->
          t = AnswerError (lookup "error" fields)).
Proof.
  intros Q F.
  destruct (Persistence.data_of_fails client q F) as (t & D).
  assert (T : thrown_by (client q) = Some t) by (unfold thrown_by; now rewrite D).
  assert (L : (forall e, client q = Throw e -> t = Failure e)
              /\ (forall fields, client q = Ok (Obj fields) ->
                    t = AnswerError (lookup "error" fields))).
  { split.
    - intros e E. rewrite E in D. cbn in D. congruence.
    - intros fields E. rewrite E, data_of_object in D.
      destruct (truthy (lookup "error" fields)); congruence. }
  destruct op; cbn in Q; try discriminate Q; injection Q as <-;
    cbn [call fallback];
    cbv beta delta [saveConversation saveMessage getConversationHistory
                    getUserConversations createUser getUserById] iota;
    rewrite D; cbn; do 2 eexists; (split; [reflexivity|]); split; assumption.
Qed.

Lemma create_table_readable (client : Client) (fn e label : string)
    (fields : list (string * value)) :
  client (Rpc fn) = Ok (Obj fields) -> readable fields ->
  create_table client fn e label = inr (reported fields label).
Proof.
  intros A R. unfold create_table, reported. rewrite A. cbn.
  destruct R as [F | (efields & text & E & M)].
  - rewrite F. reflexivity.
  - rewrite E. cbn. rewrite M. cbn.
    destruct (includes text "already exists"); reflexivity.
Qed.

(** X16.  [initializeDatabase] with a client that answers its three calls.  An
    error that says the table already exists is passed over in silence,
    any other error is written to the console, and in both cases the next
    table is tried; the last line announces success even when errors were
    written before it. *)
Theorem initializeDatabase_report (client : Client)
    (conversations messages users : list (string * value)) :
  client (Rpc "create_conversations_table") = Ok (Obj conversations) ->
  client (Rpc "create_messages_table") = Ok (Obj messages) ->
  client (Rpc "create_users_table") = Ok (Obj users) ->
  readable conversations -> readable messages -> readable users ->
  initializeDatabase (Some client) =
    (Returns Undefined,
     (reported conversations "Error creating conversations table:"
      ++ reported messages "Error creating messages table:"
      ++ reported users "Error creating users table:"
      ++ [log "Database tables initialized successfully"])%list).
Proof.
  intros A1 A2 A3 R1 R2 R3. unfold initializeDatabase. cbn [create_tables].
  rewrite (create_table_readable _ _ _ _ _ A1 R1),
          (create_table_readable _ _ _ _ _ A2 R2),
          (create_table_readable _ _ _ _ _ A3 R3).
  rewrite app_nil_r, <- !app_assoc. reflexivity.
Qed.

End PersistenceMore.

(* ===================================================================== *)
(** * Properties of the database setup script *)
(* ===================================================================== *)

Module SetupDatabaseFacts.
Import JS Process SetupDatabase.

(** X17.  Without a connection no table is created: when the connection test
    fails, the count on [users] is the only query the script sends, and the
    process exits with code 1. *)
Theorem no_connection_no_tables (supabase : Client) :
  unreachable supabase ->
  main supabase = ([SelectCount "users"], Exit 1).
Proof.
  intros U.
  assert (C : connection_test (supabase (SelectCount "users")) = false).
  { unfold unreachable in U. unfold connection_test.
    destruct (supabase (SelectCount "users")) as [answer|e]; [|reflexivity].
    destruct answer; try reflexivity;
      destruct U as (error & code & G & T & C & N); cbn in G; injection G as <-;
      try discriminate T.
    cbn. rewrite T, C. exact N. }
  unfold main, checkConnection, await. cbn. rewrite C. reflexivity.
Qed.

Lemma exec_sql_answered (supabase : Client) (sql : Statement)
    (fields : list (string * value)) :
  supabase (ExecSql sql) = Ok (Obj fields) ->
  or_exit (exec_sql supabase sql) = ([ExecSql sql], Done tt).
Proof.
  intros A. unfold or_exit, exec_sql, await. cbn. rewrite A. reflexivity.
Qed.

(** X18.  An error reported by [exec_sql] does not stop the setup.  With a
    connection, and every [exec_sql] call answered by an object, with or
    without an [error] in it, the four statements go out in the order
    users, conversations, messages, triggers, and the script runs to its
    end. *)
Theorem reported_errors_do_not_stop (supabase : Client) :
  reachable supabase ->
  (forall sql, exists fields, supabase (ExecSql sql) = Ok (Obj fields)) ->
  main supabase = (plan, Done tt).
Proof.
  intros (fields & A & E) H.
  assert (C : checkConnection supabase = ([SelectCount "users"], Done true)).
  { unfold checkConnection, await, connection_test. cbn. rewrite A. cbn.
    destruct E as [F | (efields & E1 & E2)].
    - rewrite F. reflexivity.
    - rewrite E1. cbn. rewrite E2. reflexivity. }
  unfold main. rewrite C. cbn [andThen negb].
  unfold createTables.
  destruct (H UsersTable) as (f1 & A1), (H ConversationsTable) as (f2 & A2),
           (H MessagesTable) as (f3 & A3), (H UpdatedAtTriggers) as (f4 & A4).
  rewrite (exec_sql_answered _ _ _ A1), (exec_sql_answered _ _ _ A2),
          (exec_sql_answered _ _ _ A3), (exec_sql_answered _ _ _ A4).
  reflexivity.
Qed.

Lemma or_exit_exec_sql (supabase : Client) (sql : Statement) :
  or_exit (exec_sql supabase sql) = ([ExecSql sql], Done tt)
  \/ or_exit (exec_sql supabase sql) = ([ExecSql sql], Exit 1).
Proof.
  unfold or_exit, exec_sql, await. cbn.
  destruct (supabase (ExecSql sql)) as [answer|e]; cbn; [|now right].
  destruct (destructure _ answer "error"); cbn; [now left | now right].
Qed.

(** Once the client is made, [main] sends a beginning of the plan and ends
    at its last line or with exit code 1. *)
Lemma main_follows_the_plan (supabase : Client) :
  (exists n, fst (main supabase) = firstn n plan)
  /\ (snd (main supabase) = Done tt \/ snd (main supabase) = Exit 1)
  /\ (snd (main supabase) = Done tt -> fst (main supabase) = plan).
Proof.
  unfold main, checkConnection, await. cbn [andThen app].
  destruct (connection_test (supabase (SelectCount "users")));
    cbn [andThen ret negb app];
    try (split; [exists 1; reflexivity|]; split; [now right | discriminate]).
  unfold createTables.
  destruct (or_exit_exec_sql supabase UsersTable) as [-> | ->];
    cbn [andThen app];
    [|split; [exists 2; reflexivity|]; split; [now right | discriminate]].
  destruct (or_exit_exec_sql supabase ConversationsTable) as [-> | ->];
    cbn [andThen app];
    [|split; [exists 3; reflexivity|]; split; [now right | discriminate]].
  destruct (or_exit_exec_sql supabase MessagesTable) as [-> | ->];
    cbn [andThen app];
    [|split; [exists 4; reflexivity|]; split; [now right | discriminate]].
  destruct (or_exit_exec_sql supabase UpdatedAtTriggers) as [-> | ->];
    cbn [andThen app ret];
    [|split; [exists 5; reflexivity|]; split; [now right | discriminate]].
  split; [exists 5; reflexivity|]. split; [now left | reflexivity].
Qed.

(** X19.  Whatever the client does, the script sends a beginning of its plan and
    nothing else, in the order of the plan.  It ends at its last line, with
    exit code 1, or with the exception of [createClient], which nothing
    catches: this last ending is reached exactly when both settings are
    there and [createClient] throws, and then nothing was sent.  Only a
    script that ends at its last line has sent the whole plan. *)
Theorem setup_follows_the_plan (createClient : value -> value -> result Client)
    (supabaseUrl supabaseServiceKey : value) :
  let run := script createClient supabaseUrl supabaseServiceKey in
  (exists n, fst run = firstn n plan)
  /\ (snd run = Done tt \/ snd run = Exit 1 \/ exists e, snd run = Uncaught e)
  /\ (forall e, snd run = Uncaught e <->
                truthy supabaseUrl = true /\ truthy supabaseServiceKey = true
                /\ createClient supabaseUrl supabaseServiceKey = Throw e)
  /\ (forall e, snd run = Uncaught e -> fst run = [])
  /\ (snd run = Done tt -> fst run = plan).
Proof.
  cbv zeta. unfold script.
  destruct (truthy supabaseUrl), (truthy supabaseServiceKey); cbn [negb orb];
    try (split; [exists 0; reflexivity|]; split; [right; now left|];
         split; [intros e; split; [discriminate | intros (A & B & _); discriminate]|];
         split; discriminate).
  destruct (createClient supabaseUrl supabaseServiceKey) as [supabase|x].
  - destruct (main_follows_the_plan supabase) as (P & E & D).
    split; [exact P|].
    split; [destruct E as [E|E]; [now left | right; now left]|].
    split; [|split; [|exact D]].
    + intros e. split; [|intros (_ & _ & H); discriminate H].
      intros H. destruct E as [E|E]; rewrite E in H; discriminate H.
    + intros e H. destruct E as [E|E]; rewrite E in H; discriminate H.
  - cbn. split; [exists 0; reflexivity|].
    split; [right; right; exists x; reflexivity|].
    split; [|split; [reflexivity | discriminate]].
    intros e. split.
    + intros [= <-]. repeat split.
    + intros (_ & _ & [= <-]). reflexivity.
Qed.

End SetupDatabaseFacts.

(* ===================================================================== *)
(** * Properties of the deployment script *)
(* ===================================================================== *)

Module DeployNetlifyFacts.
Import JS Process DeployNetlify.

(** Without the API key nothing happens: when [OPENROUTER_API_KEY] is not
    set, or is empty, the script runs no command and writes no file, and
    exits with code 1. *)
Lemma no_key_no_deploy (host : Host) :
  truthy (env host "OPENROUTER_API_KEY") = false ->
  deploy host = ([], Exit 1).
Proof.
  intros K. unfold deploy, checkEnvironment. cbn. rewrite K. reflexivity.
Qed.

(** X20.  The site is published only after a build that worked.  Without the
    key (not set, or empty) the script runs no command and does not write
    [netlify.toml].
    It reaches its end exactly when the key is set and the install, the build
    and the publish commands all succeed; otherwise it exits with code 1.
    The publish command is run only when install and build succeeded, and
    then it is the last command.  What the version and status commands say,
    and whether [netlify.toml] could be written, changes none of this. *)
Theorem deploy_gates (host : Host) :
  let went := deploy host in
  (snd went = Done tt <->
     truthy (env host "OPENROUTER_API_KEY") = true
     /\ succeeded (execSync host "npm install --legacy-peer-deps") = true
     /\ succeeded (execSync host "npm run build") = true
     /\ succeeded (execSync host publish) = true)
  /\ (snd went = Done tt \/ snd went = Exit 1)
  /\ (In (Run publish) (fst went) ->
      succeeded (execSync host "npm install --legacy-peer-deps") = true
      /\ succeeded (execSync host "npm run build") = true
      /\ last (fst went) (Run "") = Run publish)
  /\ (truthy (env host "OPENROUTER_API_KEY") = false -> fst went = []).
Proof.
  cbv zeta. unfold deploy, checkEnvironment, checkNetlifyCLI, setupNetlifyConfig,
    buildApplication, deployToNetlify, run, publish. cbn.
  destruct (truthy (env host "OPENROUTER_API_KEY")); cbn.
  - destruct (execSync host "npm install --legacy-peer-deps") as [o1|e1]; cbn.
    + destruct (execSync host "npm run build") as [o2|e2]; cbn.
      * destruct (execSync host "npx netlify deploy --prod --dir=.next") as [o3|e3]; cbn.
        -- split; [split; [intros _; repeat split | reflexivity]|].
           split; [now left|]. split; [|discriminate]. intros _. repeat split.
        -- split; [split; [discriminate | intros (_ & _ & _ & H); discriminate H]|].
           split; [now right|]. split; [|discriminate]. intros _. repeat split.
      * split; [split; [discriminate | intros (_ & _ & H & _); discriminate H]|].
        split; [now right|]. split; [|discriminate].
        intros [H|[H|[H|[H|[]]]]]; discriminate H.
    + split; [split; [discriminate | intros (_ & H & _); discriminate H]|].
      split; [now right|]. split; [|discriminate].
      intros [H|[H|[H|[]]]]; discriminate H.
  - split; [split; [discriminate | intros (H & _); discriminate H]|].
    split; [now right|]. split; [intros [] | reflexivity].
Qed.

End DeployNetlifyFacts.

(* ===================================================================== *)
(** * Properties of the API test script *)
(* ===================================================================== *)

Module TestApiFacts.
Import JS Process TestApi.


End TestApiFacts.

(* ===================================================================== *)
(** * Properties of the pre-development checks *)
(* ===================================================================== *)

Module PreDevChecksFacts.
Import JS Process PreDevChecks.
Local Open Scope char_scope.
Local Open Scope string_scope.

(** ** The version check *)

(** X22.  The version is compared with the text [18.0.0] character by character,
    not number by number.  A version whose first digit is 2 to 9 passes,
    whatever follows, versions 2 to 9 among them; a version that begins
    with 1 and a digit from 0 to 7 is turned away with exit code 1,
    versions 10 to 17 and also 100 and above. *)
Theorem version_is_compared_as_text (host : Host) (d : ascii) (rest : string) :
  version host = String "v" (String d rest) ->
  (In d ["2"; "3"; "4"; "5"; "6"; "7"; "8"; "9"]%char ->
     checkNodeVersion host = ([], Done tt))
  /\ (d = "1"%char ->
      forall d2 rest2, rest = String d2 rest2 ->
        In d2 ["0"; "1"; "2"; "3"; "4"; "5"; "6"; "7"]%char ->
        checkNodeVersion host = ([], Exit 1)).
Proof.
  intros V. unfold checkNodeVersion. rewrite V. cbn [slice1]. split.
  - intros H. cbn in H. repeat (destruct H as [<-|H]; [reflexivity|]). destruct H.
  - intros -> d2 rest2 -> H. cbn in H.
    repeat (destruct H as [<-|H]; [reflexivity|]). destruct H.
Qed.

(** ** Finding the key in the environment file *)

Lemma append_assoc (a b c : string) : (a ++ b) ++ c = a ++ (b ++ c).
Proof. induction a as [|x a IH]; cbn; [reflexivity | now rewrite IH]. Qed.

Lemma to_line_end_cons (c : ascii) (s : string) :
  to_line_end (String c s) = String c s ->
  is_line_terminator c = false /\ to_line_end s = s.
Proof.
  cbn. destruct (is_line_terminator c); [discriminate|].
  intros H. injection H as H. now split.
Qed.

Lemma to_line_end_append (a b : string) :
  to_line_end a = a -> to_line_end (a ++ b) = a ++ to_line_end b.
Proof.
  induction a as [|x a IH]; intros H; [reflexivity|].
  apply to_line_end_cons in H. destruct H as (T & H).
  cbn. rewrite T, (IH H). reflexivity.
Qed.

Lemma after_literal_append (p s : string) : after_literal p (p ++ s) = Some s.
Proof.
  induction p as [|a p IH]; cbn; [reflexivity|].
  rewrite Ascii.eqb_refl. exact IH.
Qed.

(** A literal without line terminators that does not begin a line does not
    begin what follows that line either. *)
Lemma after_literal_line (p line : string) (c : ascii) (rest : string) :
  to_line_end p = p -> is_line_terminator c = true ->
  after_literal p line = None ->
  after_literal p (line ++ String c rest) = None.
Proof.
  revert line. induction p as [|a p IH]; intros line P C N; [discriminate N|].
  apply to_line_end_cons in P. destruct P as (Ta & P).
  destruct line as [|b line]; cbn in *.
  - destruct (Ascii.eqb a c) eqn:E; [|reflexivity].
    apply Ascii.eqb_eq in E. congruence.
  - destruct (Ascii.eqb a b); [now apply IH | reflexivity].
Qed.

Lemma search_inside_line (key line : string) (c : ascii) (rest : string) :
  to_line_end line = line -> is_line_terminator c = true ->
  search key false (line ++ String c rest) = search key true rest.
Proof.
  induction line as [|b line IH]; intros L C; cbn.
  - rewrite C. reflexivity.
  - apply to_line_end_cons in L. destruct L as (Tb & L).
    rewrite Tb. now apply IH.
Qed.

Lemma search_skips_line (key line : string) (c : ascii) (rest : string) :
  to_line_end key = key ->
  to_line_end line = line -> is_line_terminator c = true ->
  after_literal (key ++ "=") line = None ->
  search key true (line ++ String c rest) = search key true rest.
Proof.
  intros K L C N.
  assert (P : to_line_end (key ++ "=") = key ++ "=")
    by (now rewrite to_line_end_append).
  pose proof (after_literal_line _ _ c rest P C N) as M.
  destruct line as [|b line]; cbn [append] in *.
  - cbn [search]. unfold match_here. rewrite M. cbn. rewrite C. reflexivity.
  - cbn [search]. unfold match_here. rewrite M. cbn [option_map].
    apply to_line_end_cons in L. destruct L as (Tb & L).
    rewrite Tb. now apply search_inside_line.
Qed.

Lemma search_skips_quiet (key before rest : string) :
  to_line_end key = key -> quiet key before ->
  search key true (before ++ rest) = search key true rest.
Proof.
  intros K Q. induction Q as [|line c more L N C Q IH]; [reflexivity|].
  rewrite append_assoc. cbn [append].
  rewrite (search_skips_line key line c (more ++ rest) K L C N). exact IH.
Qed.

Lemma search_found (key s group : string) :
  match_here key s = Some group -> search key true s = Some group.
Proof. intros H. destruct s; cbn [search]; rewrite H; reflexivity. Qed.

Lemma append_empty (a : string) : a ++ "" = a.
Proof. induction a as [|x a IH]; cbn; [reflexivity | now rewrite IH]. Qed.

(** The first line that assigns the key gives its value: after whole lines
    that do not assign it, the value on the line [key=value] is found as it
    stands, up to the end of the line, whatever comes on later lines. *)
Lemma assigned_on_first_line (key before value after : string) :
  to_line_end key = key -> quiet key before ->
  to_line_end value = value -> at_line_end after ->
  assigned key (before ++ key ++ "=" ++ value ++ after) = Some value.
Proof.
  intros K Q V A. unfold assigned.
  rewrite (search_skips_quiet key before _ K Q).
  rewrite <- (append_assoc key "=" (value ++ after)).
  apply search_found. unfold match_here.
  rewrite after_literal_append. cbn [option_map].
  rewrite (to_line_end_append value after V), A, append_empty. reflexivity.
Qed.

(** X23.  The key check reads the first line that assigns [OPENROUTER_API_KEY].
    In a file made of whole lines that do not assign it, then the line
    [OPENROUTER_API_KEY=value], then anything, the key counts as configured
    exactly when the value is neither empty nor the placeholder; a later
    line that assigns the key again is not looked at, and a carriage return
    before the line feed is not part of the value. *)
Theorem key_is_read_from_first_line (before value after : string) :
  quiet "OPENROUTER_API_KEY" before ->
  to_line_end value = value -> at_line_end after ->
  (missingKeys (before ++ "OPENROUTER_API_KEY=" ++ value ++ after) = []
   <-> value <> "" /\ value <> "your_grok_api_key_here").
Proof.
  intros Q V A. unfold missingKeys, requiredKeys. cbn [filter].
  change (before ++ "OPENROUTER_API_KEY=" ++ value ++ after)
    with (before ++ "OPENROUTER_API_KEY" ++ "=" ++ value ++ after).
  rewrite (assigned_on_first_line "OPENROUTER_API_KEY" before value after
             eq_refl Q V A).
  destruct (String.eqb_spec value "your_grok_api_key_here") as [P|P];
    destruct (String.eqb_spec value "") as [E|E]; cbn;
    split; try discriminate; try (intros (H1 & H2); congruence).
  intros _. split; assumption.
Qed.

(** ** The checks together *)

Lemma checkEnvironmentFile_ending (host : Host) :
  snd (checkEnvironmentFile host) =
    if existsSync host ".env.local" then Done tt
    else if succeeded (copyFileSync host ".env" ".env.local") then Done tt
         else Exit 1.
Proof.
  unfold checkEnvironmentFile.
  destruct (existsSync host ".env.local");
    destruct (copyFileSync host ".env" ".env.local") as [u|x];
    destruct (readFileSync host ".env.local") as [c|y];
    try destruct (missingKeys c); reflexivity.
Qed.

Lemma andThen_ending {E A B} (m : proc E A) (k : A -> proc E B) :
  snd (andThen m k) =
    match snd m with
    | Done a => snd (k a)
    | Exit code => Exit code
    | Uncaught e => Uncaught e
    end.
Proof.
  destruct m as [did [a|code|e]]; cbn; try reflexivity.
  destruct (k a); reflexivity.
Qed.

(** X24.  The checks run to their end exactly when the version passes the
    comparison, [.env.local] is there or could be copied from [.env], and
    the external folder holds its six files; otherwise the process exits
    with code 1.  A key that is missing, empty or still the placeholder, and
    a [.env.local] that cannot be read, stop nothing. *)
Theorem checks_pass_exactly_when (host : Host) :
  (snd (checks host) = Done tt <->
     lessThan (slice1 (version host)) "18.0.0" = false
     /\ (existsSync host ".env.local" = true
         \/ succeeded (copyFileSync host ".env" ".env.local") = true)
     /\ existsSync host "external-folder" = true
     /\ Forall (fun file => existsSync host ("external-folder/" ++ file) = true)
               requiredFiles)
  /\ (snd (checks host) = Done tt \/ snd (checks host) = Exit 1).
Proof.
  unfold checks. rewrite andThen_ending. unfold checkNodeVersion.
  destruct (lessThan (slice1 (version host)) "18.0.0"); cbn [snd exit ret].
  { split; [split; [discriminate | intros (H & _); discriminate H] | now right]. }
  rewrite andThen_ending, checkEnvironmentFile_ending.
  assert (Env : forall P : Prop,
            (existsSync host ".env.local" = false ->
             succeeded (copyFileSync host ".env" ".env.local") = false -> P) ->
            (existsSync host ".env.local" = true
             \/ succeeded (copyFileSync host ".env" ".env.local") = true -> P) -> P).
  { intros P H1 H2. destruct (existsSync host ".env.local"); [apply H2; now left|].
    destruct (succeeded _); [apply H2; now right | now apply H1]. }
  apply Env.
  - intros -> ->.
    split; [split; [discriminate | intros (_ & [H|H] & _); discriminate H] | now right].
  - intros Ok.
    assert (Done tt = (if existsSync host ".env.local" then Done tt
                       else if succeeded (copyFileSync host ".env" ".env.local")
                            then Done tt else @Exit unit 1)) as <-.
    { destruct Ok as [-> | ->]; [reflexivity|].
      destruct (existsSync host ".env.local"); reflexivity. }
    rewrite !andThen_ending. cbn [snd checkPortConfiguration checkDependencies ret].
    unfold checkExternalFolder.
    destruct (existsSync host "external-folder"); cbn [negb].
    + unfold requiredFiles. cbn [filter].
      repeat match goal with
             | |- context [existsSync host ?f] =>
                 destruct (existsSync host f) eqn:?; cbn [negb filter]
             end;
        (split; [split; [try discriminate; try (intros _; repeat split; try assumption; repeat constructor; assumption)
                        | try reflexivity;
                          intros (_ & _ & _ & F);
                          repeat match goal with
                                 | H : Forall _ (_ :: _) |- _ => inversion H; clear H; subst
                                 end; congruence]
                | first [now left | now right]]).
    + split; [split; [discriminate | intros (_ & _ & H & _); discriminate H] | now right].
Qed.

(** X25.  Run as a script, the file never ends well.  When a check fails the
    process exits with code 1; when all checks pass, the last statement of
    the file throws a ReferenceError that nothing catches. *)
Theorem script_never_ends_well (host : Host) :
  snd (script host) <> Done tt
  /\ (snd (checks host) = Done tt ->
      snd (script host) =
        Uncaught {| name := "ReferenceError";
                    message := "checkPortAvailability is not defined";
                    status := None |})
  /\ (snd (checks host) <> Done tt -> snd (script host) = Exit 1).
Proof.
  unfold script. rewrite andThen_ending.
  destruct (checks_pass_exactly_when host) as (_ & [-> | ->]); cbn.
  - split; [discriminate|]. split; [reflexivity | congruence].
  - split; [discriminate|]. split; [discriminate | reflexivity].
Qed.

End PreDevChecksFacts.

(* ===================================================================== *)
(** * Properties of [getLocalIP] *)
(* ===================================================================== *)

Module RunReportFacts.
Import JS Process RunReport.

Lemma first_wanted_spec (addresses : list NetworkAddress) :
  match first_wanted addresses with
  | Some found => exists i, In i addresses /\ wanted i = true /\ address i = found
  | None => forall i, In i addresses -> wanted i = false
  end.
Proof.
  induction addresses as [|i rest IH]; cbn; [intros i []|].
  destruct (wanted i) eqn:W.
  - exists i. repeat split; [now left | exact W].
  - destruct (first_wanted rest) as [found|].
    + destruct IH as (j & I & Wj & A). exists j. repeat split; [now right | exact Wj | exact A].
    + intros j [<-|I]; [exact W | now apply IH].
Qed.

(** X26.  The address the report shows is never a loopback or an IPv6 address:
    it is the address of an entry that is IPv4 and not internal, and it is
    [localhost] only when the machine has no such entry or the interfaces
    cannot be listed. *)
Theorem local_ip_is_external_ipv4
    (interfaces : list (string * list NetworkAddress)) :
  (exists name addresses i,
     In (name, addresses) interfaces /\ In i addresses
     /\ is_string (family i) "IPv4" = true /\ internal i = false
     /\ getLocalIP (Ok interfaces) = address i)
  \/ (getLocalIP (Ok interfaces) = "localhost"
      /\ forall name addresses i,
           In (name, addresses) interfaces -> In i addresses ->
           is_string (family i) "IPv4" = false \/ internal i = true).
Proof.
  unfold getLocalIP. induction interfaces as [|[name addresses] rest IH]; cbn.
  - right. split; [reflexivity | intros ? ? ? []].
  - pose proof (first_wanted_spec addresses) as S.
    destruct (first_wanted addresses) as [found|].
    + destruct S as (i & I & W & A). left. exists name, addresses, i.
      unfold wanted in W. apply andb_true_iff in W. destruct W as (F & N).
      apply negb_true_iff in N. repeat split; try assumption; [now left | now symmetry].
    + destruct IH as [(n & l & i & I1 & I2 & F & N & A) | (L & None)].
      * left. exists n, l, i. repeat split; try assumption. now right.
      * right. split; [exact L|].
        intros n l i [E|I1] I2.
        -- injection E as <- <-. specialize (S i I2). unfold wanted in S.
           apply andb_false_iff in S. destruct S as [S|S]; [now left|].
           apply negb_false_iff in S. now right.
        -- exact (None n l i I1 I2).
Qed.

End RunReportFacts.

(* ===================================================================== *)
(** * The theme, on every page *)
(* ===================================================================== *)

Module ThemeFacts.
Import JS ChatInterface.

(** X27.  Whatever has happened since the first render, [document.body] carries
    the two colours of the current [darkMode]: the dark pair when it is
    set, the light pair when it is not. *)
Theorem body_follows_dark_mode (p : Page) :
  reachable p ->
  style p =
    if darkMode (ui p)
    then {| backgroundColor := "#1a1a1a"; color := "#ffffff" |}
    else {| backgroundColor := "#f5f5f5"; color := "#000000" |}.
Proof.
  intros R. exact (Controller.reachable_themed p R).
Qed.

End ThemeFacts.

(* ===================================================================== *)
(** * More scenarios, checked *)
(* ===================================================================== *)

Module CheckedMore.
Import JS ChatInterface Deployment Scenario ScenarioMore.

Lemma waiting_reachable : reachable waiting.
Proof. unfold waiting. apply reach_step, reach_step, reach_mount. Defined.

(** While "Hello" waits for its answer, one request is in flight. *)
Lemma waiting_has_one_request :
  length (inflight waiting) <= 1
  /\ (isLoading (ui waiting) = true <-> inflight waiting <> []).
Proof.
  apply (ControllerMore.one_request_at_a_time waiting waiting_reachable).
  reflexivity.
Defined.

(** While "Hello" waits for its answer, the log ends with the user's turn. *)
Lemma waiting_log_is_even :
  ChatView.alternates assistant (messages (ui waiting)) = true
  /\ Nat.odd (length (messages (ui waiting))) = negb (isLoading (ui waiting)).
Proof. exact (ControllerMore.log_alternates waiting waiting_reachable). Defined.

(** The Settings button shows the panel. *)
Lemma settings_open_on_click :
  showSettings (ui (step mount SettingsClick)) = true.
Proof.
  destruct (ControllerMore.settings_panel mount SettingsClick eq_refl) as (_ & H).
  exact H.
Defined.

(** On the first render the input is empty and the button disabled. *)
Lemma send_button_disabled_at_first :
  ChatView.submitDisabled (ui mount) = refused (ui mount).
Proof.
  destruct (ControllerMore.send_button_matches_guard mount eq_refl) as (H & _).
  exact H.
Defined.

(** A 401 and then a success: five turns. *)
Lemma failure_then_success_five_turns :
  length (messages (ui (exchanges mount
            [("Hello", unauthorized); ("Again", answered "Hi there!")]))) = 5.
Proof.
  refine (proj1 (ControllerMore.every_exchange_adds_two
                   [("Hello", unauthorized); ("Again", answered "Hi there!")] _)).
  apply Forall_cons; [split; [vm_compute; discriminate|]|].
  { eapply ChatView.error_told; reflexivity. }
  apply Forall_cons; [split; [vm_compute; discriminate|]|].
  { eapply ChatView.reply_shown; reflexivity. }
  apply Forall_nil.
Defined.

(** A 500 whose payload is [null]. *)
Lemma null_payload_500 :
  exists k e,
    snd (run (sendMessage (typed "Hello")) (typed "Hello"))
      = Waiting (sent (typed "Hello") (typed "Hello")) k
    /\ snd (run (k (Ok {| status := 500; json := Ok Null |}))
                (sent (typed "Hello") (typed "Hello"))) = RenderError e.
Proof. apply (EndToEnd.null_payload_unmounts (typed "Hello") 500). reflexivity. Defined.

(** "Hello" to a gateway that answers. *)
Lemma hello_is_answered :
  exists t,
    snd (converse (saying "Hi there!") (typed "Hello")) =
      Returned (mkState (messages (typed "Hello")
                           ++ [userMessage (typed "Hello"); t])
                        "" false true false false)
    /\ role t = assistant.
Proof.
  destruct (EndToEndMore.every_submit_is_answered (saying "Hi there!") (typed "Hello"))
    as (H & _); [reflexivity | discriminate |].
  destruct H as (t & C & R).
  { intros completion reply _ G. injection G as <-.
    intros P. injection P as <-. reflexivity. }
  exists t. rewrite C. split; [reflexivity | exact R].
Defined.

(** After a 401 the user asks again: the error turn goes out with the
    request. *)
Lemma error_turn_goes_out :
  exists rq items,
    last (trace (step (steps (exchange mount ("Hello", unauthorized))
                             [Change "again"]) Submit)) PreventDefault
      = Fetch rq
    /\ body rq = Obj [("messages", Arr items)]
    /\ In (Obj [("role", Str "assistant");
                ("content", Str "Error: Invalid API key")]) items.
Proof.
  destruct (EndToEndMore.error_turn_is_sent_again mount "Hello" unauthorized
              [Change "again"] false (fun _ => Ok Null))
    as (detail & M & (rq & items & L & B & I & _) & _);
    [exact Controller.mount_idle | vm_compute; discriminate | reflexivity
    | reflexivity | reflexivity | reflexivity |].
  vm_compute in M. injection M as D. subst detail.
  exists rq, items. split; [exact L|]. split; [exact B | exact I].
Defined.

(** A row that was stored comes back. *)

Lemma stored_row_comes_back :
  Database.call (Some storing) (Database.SaveMessage (Str "hi"))
  = (Database.Returns (Obj [("id", Str "42")]), []).
Proof.
  apply (PersistenceMore.data_is_returned storing (Database.SaveMessage (Str "hi"))
           (Database.InsertOne Database.MESSAGES (Str "hi"))
           [("data", Obj [("id", Str "42")]); ("error", Null)]);
    reflexivity.
Defined.

(** Without configuration the list of conversations is empty, not null. *)
Lemma unconfigured_list_is_truthy :
  exists v,
    fst (Database.call None (Database.GetUserConversations (Str "u1")))
      = Database.Returns v
    /\ truthy v = true.
Proof.
  apply (PersistenceMore.lists_are_never_null None
           (Database.GetUserConversations (Str "u1"))).
  reflexivity.
Defined.

(** A client that reports an error: one line on the console. *)
Lemma broken_client_logs_once :
  exists label t,
    Database.call (Some broken) (Database.SaveMessage (Str "hi"))
      = (Database.Returns Null, [Database.error label t]).
Proof.
  destruct (PersistenceMore.failure_is_logged_once broken
              (Database.SaveMessage (Str "hi"))
              (Database.InsertOne Database.MESSAGES (Str "hi")))
    as (label & t & C & _); [reflexivity | cbn; eexists; split; reflexivity |].
  exists label, t. exact C.
Defined.

(** Tables that exist already: only the line that announces success. *)
Lemma provisioned_is_silent :
  Database.initializeDatabase (Some provisioned)
  = (Database.Returns Undefined,
     [Database.log "Database tables initialized successfully"]).
Proof.
  apply (PersistenceMore.initializeDatabase_report provisioned
           [("data", Null); ("error", Obj [("message", Str "relation already exists")])]
           [("data", Null); ("error", Obj [("message", Str "relation already exists")])]
           [("data", Null); ("error", Obj [("message", Str "relation already exists")])]);
    try reflexivity; right; do 2 eexists; split; reflexivity.
Defined.

(** A project that cannot be reached: one query, exit code 1. *)
Lemma down_stops_the_setup :
  SetupDatabase.main down
  = ([SetupDatabase.SelectCount "users"], Process.Exit 1).
Proof.
  apply (SetupDatabaseFacts.no_connection_no_tables down). exact I.
Defined.

(** A fresh project: all four statements go out although each is answered
    with an error. *)
Lemma fresh_project_runs_to_the_end :
  SetupDatabase.main fresh = (SetupDatabase.plan, Process.Done tt).
Proof.
  apply (SetupDatabaseFacts.reported_errors_do_not_stop fresh).
  - eexists. split; [reflexivity|]. right. eexists. split; reflexivity.
  - intros sql. eexists. reflexivity.
Defined.

(** Node 9 passes the version check. *)
Lemma node9_passes :
  PreDevChecks.checkNodeVersion node9 = ([], Process.Done tt).
Proof.
  destruct (PreDevChecksFacts.version_is_compared_as_text node9
              (ascii_of_nat 57) ".11.2" eq_refl) as (H & _).
  apply H. cbn. tauto.
Defined.

(** A file of three lines with Windows line ends: a setting, the key, the
    key again without a value. *)
Lemma key_found_in_windows_file :
  PreDevChecks.missingKeys
    (("NODE_ENV=development" ++ String (ascii_of_nat 13) (LF ++ ""))
     ++ "OPENROUTER_API_KEY=" ++ "sk-or-v1-abc"
     ++ (CRLF ++ "OPENROUTER_API_KEY=" ++ CRLF)) = [].
Proof.
  apply (PreDevChecksFacts.key_is_read_from_first_line
           ("NODE_ENV=development" ++ String (ascii_of_nat 13) (LF ++ ""))
           "sk-or-v1-abc"
           (CRLF ++ "OPENROUTER_API_KEY=" ++ CRLF)).
  - apply PreDevChecks.quiet_line; [reflexivity | reflexivity | reflexivity|].
    apply (PreDevChecks.quiet_line _ "" (ascii_of_nat 10) "");
      [reflexivity | reflexivity | reflexivity | constructor].
  - reflexivity.
  - reflexivity.
  - split; discriminate.
Defined.

(** The first render is light. *)
Lemma first_render_is_light :
  style mount = {| backgroundColor := "#f5f5f5"; color := "#000000" |}.
Proof. exact (ThemeFacts.body_follows_dark_mode mount reach_mount). Defined.

End CheckedMore.
